(** * MVX OnChain Proof: the client service layer, embedded and verified

    The development follows the TypeScript sources:
    - [ContractService] and [WalletService] are the two singletons of the
      first service file (the proof contract client and the wallet
      session manager);
    - [ModernContractService] is the class of
      [frontend-modern/src/utils/contractService.ts].

    Asynchronous functions are embedded in a state-and-exception monad
    over a [World]: the browser's [localStorage], the wallet service's
    [currentProvider] field, the clock, the answers the network will
    give to the next status polls, and a trace of every call that leaves
    the program (network, signing backend, timers, console). *)

From Stdlib Require Import Ascii.
From stdpp Require Import base option list strings numbers pretty gmap.

#[local] Set Warnings "-register-all".
Local Open Scope string_scope.
Local Open Scope list_scope.
Local Open Scope Z_scope.

(** ** JavaScript values *)

(** Values of type [any]: what [JSON.parse] and the SDK's result parser
    hand back.  Numbers are the integer ones ([Date.now()] timestamps,
    counters); [JNaN] is the one non-integer number the code can meet
    ([parseInt] of a non-number). *)
Inductive JsVal : Type :=
| JUndefined
| JNull
| JBool (b : bool)
| JNum (n : Z)
| JNaN
| JStr (s : string)
| JArr (items : list JsVal)
| JObj (fields : list (string * JsVal)).

(** ToBoolean. *)
Definition truthy (v : JsVal) : bool :=
  match v with
  | JUndefined | JNull | JNaN => false
  | JBool b => b
  | JNum n => negb (n =? 0)
  | JStr s => negb (String.eqb s EmptyString)
  | JArr _ | JObj _ => true
  end.

(** What can be thrown: an instance of [Error] carrying its [message], or
    any other value. *)
Inductive Thrown : Type :=
| ErrorObj (message : string)
| NonError (v : JsVal).

(** The completion of a call: it returns or it throws. *)
Inductive Res (A : Type) : Type :=
| Returned (a : A)
| Raised (e : Thrown).
Arguments Returned {A} a.
Arguments Raised {A} e.

Definition TypeError : Thrown := ErrorObj "TypeError".

#[global] Instance Res_ret : MRet Res := fun A a => Returned a.
#[global] Instance Res_bind : MBind Res := fun A B f r =>
  match r with
  | Returned a => f a
  | Raised e => Raised e
  end.

Definition nullish (v : JsVal) : bool :=
  match v with
  | JUndefined | JNull => true
  | _ => false
  end.

Fixpoint assoc (k : string) (fields : list (string * JsVal)) : JsVal :=
  match fields with
  | [] => JUndefined
  | (k', v) :: rest => if String.eqb k k' then v else assoc k rest
  end.

(** [v.name]: reading a property of [null] or [undefined] throws a
    TypeError; a property that is not there reads as [undefined]. *)
Definition js_prop (v : JsVal) (name : string) : Res JsVal :=
  match v with
  | JUndefined | JNull => Raised TypeError
  | JObj fields => Returned (assoc name fields)
  | JArr items =>
      Returned (if String.eqb name "length" then JNum (Z.of_nat (length items))
                else JUndefined)
  | JStr s =>
      Returned (if String.eqb name "length" then JNum (Z.of_nat (String.length s))
                else JUndefined)
  | JBool _ | JNum _ | JNaN => Returned JUndefined
  end.

(** The value [v.name] reads, for a [v] on which reading does not throw. *)
Definition js_get (v : JsVal) (name : string) : JsVal :=
  match js_prop v name with
  | Returned x => x
  | Raised _ => JUndefined
  end.

(** [v[i]] for a numeric index. *)
Definition js_index (v : JsVal) (i : nat) : Res JsVal :=
  match v with
  | JUndefined | JNull => Raised TypeError
  | JArr items => Returned (nth i items JUndefined)
  | JStr s =>
      Returned (match String.get i s with
                | Some c => JStr (String c EmptyString)
                | None => JUndefined
                end)
  | JObj fields => Returned (assoc (pretty i) fields)
  | JBool _ | JNum _ | JNaN => Returned JUndefined
  end.

(** [a === b] where [b] is the boolean [true]. *)
Definition strict_eq_true (v : JsVal) : bool :=
  match v with JBool true => true | _ => false end.

(** [a === s] / [a !== s] where [s] is a string. *)
Definition strict_eq_str (v : JsVal) (s : string) : bool :=
  match v with JStr t => String.eqb t s | _ => false end.

(** ** The world outside the program *)

(** The object [networkProvider.getTransactionStatus] resolves to. *)
Record TransactionStatus : Type := { status : string }.

(** A contract call: function name, positional arguments, gas, caller. *)
Inductive Arg : Type :=
| StringValue (s : string)
| AddressValue (bech32 : string)
| BytesValue (utf8 : string)
| OptionalValue (inner : option string).

Record Transaction : Type := {
  tx_func : string;
  tx_args : list Arg;
  tx_gasLimit : Z;
  tx_caller : string
}.

Record Query : Type := { q_func : string; q_args : list Arg }.

(** A query response: [returnData] may be missing ([None]). *)
Record QueryResponse : Type := {
  returnData : option (list string);
  isSuccess : bool
}.

(** A signing backend, by what each of its capabilities does when
    called.  [logout] is optional. *)
Record Backend : Type := {
  b_id : string;
  b_init : Res unit;
  b_login : Res string;
  b_signTransaction : Transaction -> Res unit;
  b_logout : option (Res unit)
}.

(** Every call that leaves the program, newest first. *)
Inductive Event : Type :=
| EvGetTransactionStatus (txHash : string)
| EvSetTimeout (ms : Z)
| EvQueryContract (q : Query)
| EvSendTransaction (t : Transaction)
| EvSignTransaction (t : Transaction)
| EvProviderInit (id : string)
| EvProviderLogin (id : string)
| EvProviderLogout (id : string)
| EvAccountSync (address : string)
| EvConsoleError (label : string).

(** The runtime and the third-party SDK, by their behaviour.  Each field
    is arbitrary: the theorems quantify over all of them. *)
Record Env : Type := {
  JSON_parse : string -> Res JsVal;             (* throws a SyntaxError on bad text *)
  JSON_stringify : JsVal -> string;
  toString : JsVal -> Res string;               (* v.toString(), v not nullish *)
  parseInt : string -> JsVal;
  stringOf : JsVal -> string;                   (* `${v}` for a v that is not a string *)
  numberOf : JsVal -> option Z;                 (* Number(v) for strings and objects; None: NaN *)
  extensionInstalled : bool;                    (* window.elrondWallet !== undefined *)
  ledgerSupported : bool;                       (* 'usb' in navigator *)
  makeBackend : string -> Backend;              (* the SDK's provider constructors *)
  newAddress : JsVal -> Res string;             (* new Address(value) *)
  accountSync : string -> Res string;           (* account.sync(...); account.balance.toString() *)
  contractCall : Transaction -> Res Transaction;   (* contract.call({...}) *)
  createQuery : Query -> Res Query;                (* contract.createQuery({...}) *)
  buildQuery : Query -> Res Query;                 (* contract.methodsExplicit.f(args).buildQuery() *)
  queryContract : Query -> Res QueryResponse;
  parseQueryResponse : QueryResponse -> Res JsVal;
  sendTransaction : Transaction -> Res string
}.

Record World : Type := {
  storage : gmap string string;                 (* localStorage *)
  currentProvider : option Backend;             (* WalletService.currentProvider *)
  now : Z;                                      (* Date.now() *)
  statusFeed : nat -> string -> Res TransactionStatus;
                                                (* answer to the k-th next status poll *)
  trace : list Event
}.

Definition emit (ev : Event) (w : World) : World :=
  {| storage := storage w; currentProvider := currentProvider w; now := now w;
     statusFeed := statusFeed w; trace := ev :: trace w |}.

Definition set_storage (s : gmap string string) (w : World) : World :=
  {| storage := s; currentProvider := currentProvider w; now := now w;
     statusFeed := statusFeed w; trace := trace w |}.

Definition set_currentProvider (p : option Backend) (w : World) : World :=
  {| storage := storage w; currentProvider := p; now := now w;
     statusFeed := statusFeed w; trace := trace w |}.

Definition next_status (w : World) : World :=
  {| storage := storage w; currentProvider := currentProvider w; now := now w;
     statusFeed := fun k => statusFeed w (S k); trace := trace w |}.

(** ** The monad of asynchronous code *)

(** A computation runs in a world and completes, leaving a world.  A
    throw keeps the effects done so far. *)
Definition M (A : Type) : Type := World -> Res A * World.

Definition throw {A} (e : Thrown) : M A := fun w => (Raised e, w).

#[global] Instance M_ret : MRet M := fun A a w => (Returned a, w).
#[global] Instance M_bind : MBind M := fun A B f c w =>
  match c w with
  | (Returned a, w') => f a w'
  | (Raised e, w') => (Raised e, w')
  end.

(** [try { body } catch (error) { handler }] *)
Definition try_catch {A} (body : M A) (handler : Thrown -> M A) : M A :=
  fun w =>
    match body w with
    | (Returned a, w') => (Returned a, w')
    | (Raised e, w') => handler e w'
    end.

(** [try { body } finally { fin }] where [fin] neither returns nor
    throws on its own account. *)
Definition try_finally {A} (body : M A) (fin : World -> World) : M A :=
  fun w => let '(r, w') := body w in (r, fin w').

(** Lifting the outcome of an outside call, recorded in the trace. *)
Definition external {A} (ev : Event) (r : Res A) : M A :=
  fun w => (r, emit ev w).

Definition lift {A} (r : Res A) : M A := fun w => (r, w).

(** [Date.now()] *)
Definition Date_now : M Z := fun w => (Returned (now w), w).

Definition console_error (label : string) : M unit :=
  fun w => (Returned tt, emit (EvConsoleError label) w).

(** [await new Promise(resolve => setTimeout(resolve, ms))] *)
Definition sleep (ms : Z) : M unit :=
  fun w => (Returned tt, emit (EvSetTimeout ms) w).

(** [error instanceof Error ? error.message : fallback] *)
Definition message_or (e : Thrown) (fallback : string) : string :=
  match e with
  | ErrorObj m => m
  | NonError _ => fallback
  end.

(** [localStorage] *)
Definition getItem (key : string) : M (option string) :=
  fun w => (Returned (storage w !! key), w).

Definition removeItem (key : string) : M unit :=
  fun w => (Returned tt, set_storage (delete key (storage w)) w).

Definition setItem (key value : string) : M unit :=
  fun w => (Returned tt, set_storage (<[key := value]> (storage w)) w).

(** A world in which nothing has happened yet: empty storage, no
    signing backend in memory, and the given answers to status polls. *)
Definition initial_world (feed : nat -> string -> Res TransactionStatus) : World :=
  {| storage := ∅; currentProvider := None; now := 0;
     statusFeed := feed; trace := [] |}.

(** A network that always reports the same status. *)
Definition always_reports (s : string) : nat -> string -> Res TransactionStatus :=
  fun _ _ => Returned {| status := s |}.

(** A network that reports [first] to the first poll and [later] to
    every poll after it. *)
Definition reports_then (first later : string)
  : nat -> string -> Res TransactionStatus :=
  fun k _ => match k with
             | O => Returned {| status := first |}
             | S _ => Returned {| status := later |}
             end.

(** How often the network was asked for a transaction status, and how
    often a timer was set. *)
Fixpoint polls (t : list Event) : nat :=
  match t with
  | [] => 0
  | EvGetTransactionStatus _ :: t' => S (polls t')
  | _ :: t' => polls t'
  end.

Fixpoint sleeps (t : list Event) : nat :=
  match t with
  | [] => 0
  | EvSetTimeout _ :: t' => S (sleeps t')
  | _ :: t' => sleeps t'
  end.

(** ** The wallet session manager *)

Module WalletService.

Record WalletProvider : Type := {
  wp_id : string;
  wp_name : string;
  wp_iconUrl : string;
  wp_isInstalled : bool
}.

(** [address] is a value of the runtime: [getCurrentWalletState] takes it
    from parsed JSON.  An absent field reads as [undefined] / [None]. *)
Record WalletState : Type := {
  isConnected : bool;
  address : JsVal;
  balance : option string;
  provider : option WalletProvider;
  isLoading : bool;
  error : option string
}.

(** [{ isConnected: false, isLoading: false }] *)
Definition disconnected : WalletState :=
  {| isConnected := false; address := JUndefined; balance := None;
     provider := None; isLoading := false; error := None |}.

(** [{ isConnected: false, isLoading: false, error: msg }] *)
Definition failed (msg : string) : WalletState :=
  {| isConnected := false; address := JUndefined; balance := None;
     provider := None; isLoading := false; error := Some msg |}.

Section WithEnv.

Context (env : Env).

Definition isExtensionInstalled : bool := extensionInstalled env.
Definition isLedgerSupported : bool := ledgerSupported env.

Definition getAvailableProviders : list WalletProvider :=
  [ {| wp_id := "extension"; wp_name := "MultiversX DeFi Wallet";
       wp_iconUrl := "/icons/multiversx-extension.svg";
       wp_isInstalled := isExtensionInstalled |};
    {| wp_id := "webwallet"; wp_name := "Web Wallet";
       wp_iconUrl := "/icons/web-wallet.svg"; wp_isInstalled := true |};
    {| wp_id := "walletconnect"; wp_name := "xPortal Mobile";
       wp_iconUrl := "/icons/xportal.svg"; wp_isInstalled := true |};
    {| wp_id := "ledger"; wp_name := "Ledger Hardware";
       wp_iconUrl := "/icons/ledger.svg";
       wp_isInstalled := isLedgerSupported |} ].

(** [this.getAvailableProviders().find(p => p.id === providerId)] *)
Definition find_provider (providerId : JsVal) : option WalletProvider :=
  List.find (fun p => strict_eq_str providerId (wp_id p)) getAvailableProviders.

(** The interpolation of [providerId] in a template literal. *)
Definition template (v : JsVal) : string :=
  match v with
  | JStr s => s
  | _ => stringOf env v
  end.

(** [provider.init()] on a freshly made backend. *)
Definition init_backend (id : string) : M Backend :=
  let provider := makeBackend env id in
  _ ← external (EvProviderInit id) (b_init provider);
  mret provider.

(** The [switch (providerId)] of [connectWallet]. *)
Definition select_backend (providerId : JsVal) : M Backend :=
  if strict_eq_str providerId "extension" then
    if negb isExtensionInstalled
    then throw (ErrorObj "MultiversX Extension not installed")
    else init_backend "extension"
  else if strict_eq_str providerId "webwallet" then
    mret (makeBackend env "webwallet")
  else if strict_eq_str providerId "walletconnect" then
    init_backend "walletconnect"
  else if strict_eq_str providerId "ledger" then
    if negb isLedgerSupported
    then throw (ErrorObj "Ledger not supported in this browser")
    else init_backend "ledger"
  else throw (ErrorObj ("Unknown provider: " +:+ template providerId)).

(** [connectWallet(providerId, callbackUrl?)].  [callbackUrl] only picks
    the page the web wallet redirects to. *)
Definition connectWallet (providerId : JsVal) (callbackUrl : option string)
  : M WalletState :=
  try_catch
    (provider ← select_backend providerId;
     _ ← (fun w => (Returned tt, set_currentProvider (Some provider) w));
     address ← external (EvProviderLogin (b_id provider)) (b_login provider);
     _ ← lift (newAddress env (JStr address));
     balance ← external (EvAccountSync address) (accountSync env address);
     let walletState :=
       {| isConnected := true; address := JStr address;
          balance := Some balance; provider := find_provider providerId;
          isLoading := false; error := None |} in
     connectedAt ← Date_now;
     _ ← setItem "wallet_state"
           (JSON_stringify env
              (JObj [("providerId", providerId); ("address", JStr address);
                     ("connectedAt", JNum connectedAt)]));
     mret walletState)
    (fun error =>
       _ ← console_error "Wallet connection error:";
       mret (failed (message_or error "Connection failed"))).

Definition getCurrentProvider : M (option Backend) :=
  fun w => (Returned (currentProvider w), w).

(** [disconnectWallet()] *)
Definition disconnectWallet : M unit :=
  try_finally
    (try_catch
       (current ← getCurrentProvider;
        match current with
        | Some p =>
            match b_logout p with
            | Some outcome => external (EvProviderLogout (b_id p)) outcome
            | None => mret tt
            end
        | None => mret tt
        end)
       (fun error => console_error "Wallet disconnect error:"))
    (fun w =>
       set_storage (delete "wallet_state" (storage w))
         (set_currentProvider None w)).

(** [!stored] for what [localStorage.getItem] gives: [null], or a string,
    of which the empty one is falsy too. *)
Definition no_item (stored : option string) : bool :=
  match stored with
  | None => true
  | Some s => String.eqb s EmptyString
  end.

(** [getCurrentWalletState()] *)
Definition getCurrentWalletState : M WalletState :=
  stored ← getItem "wallet_state";
  match stored with
  | None => mret disconnected
  | Some s =>
      if no_item stored then mret disconnected
      else
        try_catch
          (parsed ← lift (JSON_parse env s);
           providerId ← lift (js_prop parsed "providerId");
           address ← lift (js_prop parsed "address");
           mret {| isConnected := true; address := address; balance := None;
                   provider := find_provider providerId;
                   isLoading := false; error := None |})
          (fun _ =>
             _ ← removeItem "wallet_state";
             mret disconnected)
  end.

(** [signAndSendTransaction(transaction)] *)
Definition signAndSendTransaction (transaction : Transaction) : M string :=
  current ← getCurrentProvider;
  match current with
  | None => throw (ErrorObj "No wallet connected")
  | Some p =>
      try_catch
        (_ ← external (EvSignTransaction transaction)
               (b_signTransaction p transaction);
         txHash ← external (EvSendTransaction transaction)
                    (sendTransaction env transaction);
         mret txHash)
        (fun error =>
           _ ← console_error "Transaction error:";
           throw (ErrorObj (message_or error "Transaction failed")))
  end.

(** [Number(v)] *)
Definition ToNumber (v : JsVal) : option Z :=
  match v with
  | JUndefined | JNaN => None
  | JNull => Some 0
  | JBool b => Some (if b then 1 else 0)
  | JNum n => Some n
  | JStr _ | JArr _ | JObj _ => numberOf env v
  end.

(** [Date.now() - connectedAt < 24 * 60 * 60 * 1000]; a comparison with
    NaN is false. *)
Definition isRecentConnection (current : Z) (connectedAt : JsVal) : bool :=
  match ToNumber connectedAt with
  | Some c => current - c <? 24 * 60 * 60 * 1000
  | None => false
  end.

(** [autoReconnect()] *)
Definition autoReconnect : M WalletState :=
  stored ← getItem "wallet_state";
  match stored with
  | None => mret disconnected
  | Some s =>
      if no_item stored then mret disconnected
      else
        try_catch
          (parsed ← lift (JSON_parse env s);
           providerId ← lift (js_prop parsed "providerId");
           connectedAt ← lift (js_prop parsed "connectedAt");
           current ← Date_now;
           if isRecentConnection current connectedAt
              && negb (strict_eq_str providerId "webwallet")
           then connectWallet providerId None
           else
             _ ← removeItem "wallet_state";
             mret disconnected)
          (fun error =>
             _ ← console_error "Auto-reconnect failed:";
             _ ← removeItem "wallet_state";
             mret (failed "Auto-reconnect failed"))
  end.

(** [getBalance(address)] *)
Definition getBalance (address : string) : M string :=
  try_catch
    (_ ← lift (newAddress env (JStr address));
     balance ← external (EvAccountSync address) (accountSync env address);
     mret balance)
    (fun error =>
       _ ← console_error "Error getting balance:";
       mret "0").

(** [isValidAddress(address)] *)
Definition isValidAddress (address : string) : bool :=
  match newAddress env (JStr address) with
  | Returned _ => true
  | Raised _ => false
  end.

End WithEnv.

End WalletService.

(** ** The proof contract client (first service file) *)

Module ContractService.

Record ProofData : Type := {
  pd_proof_text : string;
  pd_timestamp : JsVal;          (* what parseInt gave: a number or NaN *)
  pd_proof_id : string;
  pd_metadata : string
}.

Record CreateProofRequest : Type := {
  proof_text : string;
  proof_id : string;
  metadata : option string
}.

Record UpdateProofRequest : Type := {
  upd_proof_id : string;
  new_proof_text : string;
  new_metadata : option string
}.

(** [if (request.metadata)] on an optional string: present and not
    empty. *)
Definition provided (m : option string) : bool :=
  match m with
  | Some s => negb (String.eqb s EmptyString)
  | None => false
  end.

(** The argument list [createProof] builds (the [args] array after the
    optional [push]). *)
Definition createProof_args (request : CreateProofRequest) : list Arg :=
  let args := [StringValue (proof_text request); StringValue (proof_id request)] in
  match metadata request with
  | Some m => if provided (metadata request) then args ++ [StringValue m] else args
  | None => args
  end.

(** The argument list [updateProof] builds. *)
Definition updateProof_args (request : UpdateProofRequest) : list Arg :=
  let args := [StringValue (upd_proof_id request);
               StringValue (new_proof_text request)] in
  match new_metadata request with
  | Some m => if provided (new_metadata request) then args ++ [StringValue m] else args
  | None => args
  end.

(** [!response.returnData || response.returnData.length === 0] *)
Definition no_returnData (response : QueryResponse) : bool :=
  match returnData response with
  | None => true
  | Some data => (length data =? 0)%nat
  end.

(** [v.toString()] *)
Definition call_toString (env : Env) (v : JsVal) : Res string :=
  if nullish v then Raised TypeError else toString env v.

Section WithEnv.

Context (env : Env).

(** [createProof(request)] *)
Definition createProof (request : CreateProofRequest) : M string :=
  walletState ← WalletService.getCurrentWalletState env;
  if negb (WalletService.isConnected walletState)
     || negb (truthy (WalletService.address walletState))
  then throw (ErrorObj "Wallet not connected")
  else
    try_catch
      (let args := createProof_args request in
       caller ← lift (newAddress env (WalletService.address walletState));
       transaction ← lift (contractCall env
                             {| tx_func := "certify_action"; tx_args := args;
                                tx_gasLimit := 20000000; tx_caller := caller |});
       txHash ← WalletService.signAndSendTransaction env transaction;
       mret txHash)
      (fun error =>
         _ ← console_error "Create proof error:";
         throw (ErrorObj (message_or error "Failed to create proof"))).

(** [updateProof(request)] *)
Definition updateProof (request : UpdateProofRequest) : M string :=
  walletState ← WalletService.getCurrentWalletState env;
  if negb (WalletService.isConnected walletState)
     || negb (truthy (WalletService.address walletState))
  then throw (ErrorObj "Wallet not connected")
  else
    try_catch
      (let args := updateProof_args request in
       caller ← lift (newAddress env (WalletService.address walletState));
       transaction ← lift (contractCall env
                             {| tx_func := "update_proof"; tx_args := args;
                                tx_gasLimit := 15000000; tx_caller := caller |});
       txHash ← WalletService.signAndSendTransaction env transaction;
       mret txHash)
      (fun error =>
         _ ← console_error "Update proof error:";
         throw (ErrorObj (message_or error "Failed to update proof"))).

(** [proofData.field.toString()] *)
Definition field_toString (proofData : JsVal) (field : string) : Res string :=
  v ← js_prop proofData field;
  call_toString env v.

(** The object literal built from one decoded proof. *)
Definition toProofData (proofData : JsVal) : Res ProofData :=
  text ← field_toString proofData "proof_text";
  stamp ← field_toString proofData "timestamp";
  id ← field_toString proofData "proof_id";
  meta ← field_toString proofData "metadata";
  mret {| pd_proof_text := text; pd_timestamp := parseInt env stamp;
          pd_proof_id := id; pd_metadata := meta |}.

(** [getProof(userAddress, proofId)] *)
Definition getProof (userAddress proofId : string) : M (option ProofData) :=
  try_catch
    (user ← lift (newAddress env (JStr userAddress));
     query ← lift (createQuery env
                     {| q_func := "getProof";
                        q_args := [AddressValue user; StringValue proofId] |});
     response ← external (EvQueryContract query) (queryContract env query);
     if no_returnData response then mret None
     else
       decoded ← lift (parseQueryResponse env response);
       if truthy decoded then
         proofData ← lift (js_index decoded 0);
         if truthy proofData then
           data ← lift (toProofData proofData);
           mret (Some data)
         else mret None
       else mret None)
    (fun error =>
       _ ← console_error "Get proof error:";
       mret None).

(** [getUserProofs(userAddress)] *)
Definition getUserProofs (userAddress : string) : M (list ProofData) :=
  try_catch
    (user ← lift (newAddress env (JStr userAddress));
     query ← lift (createQuery env
                     {| q_func := "getUserProofs"; q_args := [AddressValue user] |});
     response ← external (EvQueryContract query) (queryContract env query);
     if no_returnData response then mret []
     else
       decoded ← lift (parseQueryResponse env response);
       if truthy decoded then
         first ← lift (js_index decoded 0);
         match first with
         | JArr items => lift (mapM toProofData items)
         | _ => mret []
         end
       else mret [])
    (fun error =>
       _ ← console_error "Get user proofs error:";
       mret []).

(** [proofExists(proofId)]: [decoded && decoded[0] === true]. *)
Definition proofExists (proofId : string) : M JsVal :=
  try_catch
    (query ← lift (createQuery env
                     {| q_func := "proofExists"; q_args := [StringValue proofId] |});
     response ← external (EvQueryContract query) (queryContract env query);
     if no_returnData response then mret (JBool false)
     else
       decoded ← lift (parseQueryResponse env response);
       if truthy decoded then
         first ← lift (js_index decoded 0);
         mret (JBool (strict_eq_true first))
       else mret decoded)
    (fun error =>
       _ ← console_error "Proof exists check error:";
       mret (JBool false)).

(** [getProofOwner(proofId)] *)
Definition getProofOwner (proofId : string) : M (option string) :=
  try_catch
    (query ← lift (createQuery env
                     {| q_func := "getProofOwner"; q_args := [StringValue proofId] |});
     response ← external (EvQueryContract query) (queryContract env query);
     if no_returnData response then mret None
     else
       decoded ← lift (parseQueryResponse env response);
       if truthy decoded then
         first ← lift (js_index decoded 0);
         if truthy first then
           owner ← lift (call_toString env first);
           mret (Some owner)
         else mret None
       else mret None)
    (fun error =>
       _ ← console_error "Get proof owner error:";
       mret None).

(** [decoded && decoded[0] ? parseInt(decoded[0].toString()) : 0] *)
Definition decode_count (decoded : JsVal) : Res JsVal :=
  if truthy decoded then
    first ← js_index decoded 0;
    if truthy first then
      digits ← call_toString env first;
      mret (parseInt env digits)
    else mret (JNum 0)
  else mret (JNum 0).

(** [getUserProofCount(userAddress)] *)
Definition getUserProofCount (userAddress : string) : M JsVal :=
  try_catch
    (user ← lift (newAddress env (JStr userAddress));
     query ← lift (createQuery env
                     {| q_func := "getUserProofCount";
                        q_args := [AddressValue user] |});
     response ← external (EvQueryContract query) (queryContract env query);
     if no_returnData response then mret (JNum 0)
     else
       decoded ← lift (parseQueryResponse env response);
       lift (decode_count decoded))
    (fun error =>
       _ ← console_error "Get user proof count error:";
       mret (JNum 0)).

(** [getTotalProofs()] *)
Definition getTotalProofs : M JsVal :=
  try_catch
    (query ← lift (createQuery env {| q_func := "getTotalProofs"; q_args := [] |});
     response ← external (EvQueryContract query) (queryContract env query);
     if no_returnData response then mret (JNum 0)
     else
       decoded ← lift (parseQueryResponse env response);
       lift (decode_count decoded))
    (fun error =>
       _ ← console_error "Get total proofs error:";
       mret (JNum 0)).

End WithEnv.

(** The outcome of one turn of a loop whose body may [return]. *)
Inductive Step (A : Type) : Type :=
| Return (a : A)
| Next.
Arguments Return {A} a.
Arguments Next {A}.

(** [this.networkProvider.getTransactionStatus(txHash)]: the network
    gives its next answer. *)
Definition getTransactionStatus (txHash : string) : M TransactionStatus :=
  fun w => (statusFeed w 0%nat txHash,
            next_status (emit (EvGetTransactionStatus txHash) w)).

Definition is_success (s : string) : bool :=
  String.eqb s "executed" || String.eqb s "success".

Definition is_failure (s : string) : bool :=
  String.eqb s "failed" || String.eqb s "invalid".

(** The body of the [for] loop of [waitForTransaction], at index [i]. *)
Definition waitForTransaction_body (txHash : string) (maxRetries i : Z)
  : M (Step TransactionStatus) :=
  try_catch
    (st ← getTransactionStatus txHash;
     if is_success (status st) then mret (Return st)
     else if is_failure (status st)
          then throw (ErrorObj ("Transaction failed: " +:+ status st))
          else _ ← sleep 2000; mret Next)
    (fun error =>
       if i =? maxRetries - 1 then throw error
       else _ ← sleep 2000; mret Next).

(** [for (let i = 0; i < maxRetries; i++) { ... }] followed by the
    timeout throw.  [remaining] is the loop's variant [maxRetries - i]:
    the test [i < maxRetries] holds exactly while it is positive. *)
Fixpoint waitForTransaction_loop (txHash : string) (maxRetries : Z)
    (remaining : nat) (i : Z) : M TransactionStatus :=
  match remaining with
  | O => throw (ErrorObj "Transaction timeout")
  | S remaining' =>
      r ← waitForTransaction_body txHash maxRetries i;
      match r with
      | Return st => mret st
      | Next => waitForTransaction_loop txHash maxRetries remaining' (i + 1)
      end
  end.

Definition waitForTransaction (txHash : string) (maxRetries : Z)
  : M TransactionStatus :=
  waitForTransaction_loop txHash maxRetries (Z.to_nat maxRetries) 0.

(** [waitForTransaction(txHash)], with the default [maxRetries = 10]. *)
Definition waitForTransaction_default (txHash : string) : M TransactionStatus :=
  waitForTransaction txHash 10.

(** One idle turn of the loop: a poll, then the two-second timer. *)
Definition idle_step (txHash : string) (w : World) : World :=
  emit (EvSetTimeout 2000) (next_status (emit (EvGetTransactionStatus txHash) w)).

(** The events of [n] idle turns, newest first. *)
Fixpoint idle_trace (txHash : string) (n : nat) : list Event :=
  match n with
  | O => []
  | S n' => EvSetTimeout 2000 :: EvGetTransactionStatus txHash :: idle_trace txHash n'
  end.

(** A poll that reports a status which is neither a success nor a
    failure. *)
Definition non_terminal (r : Res TransactionStatus) : bool :=
  match r with
  | Returned st => negb (is_success (status st)) && negb (is_failure (status st))
  | Raised _ => false
  end.

(** A poll that reports a success status. *)
Definition reports_success (r : Res TransactionStatus) : bool :=
  match r with
  | Returned st => is_success (status st)
  | Raised _ => false
  end.

(** A poll that reports a failure status. *)
Definition reports_failure (r : Res TransactionStatus) : bool :=
  match r with
  | Returned st => is_failure (status st)
  | Raised _ => false
  end.

End ContractService.


(** ** The contract service of [frontend-modern/src/utils/contractService.ts] *)

Module ModernContractService.

Record CertifyActionParams : Type := {
  proofText : string;
  proofId : string;
  metadata : option string
}.

Record UpdateProofParams : Type := {
  upd_proofId : string;
  newProofText : string;
  newMetadata : option string
}.

(** The argument list [certifyAction] builds: the [args] array after the
    [if (params.metadata) ... else ...] that pushes an [OptionalValue]
    either way. *)
Definition certifyAction_args (params : CertifyActionParams) : list Arg :=
  let args := [BytesValue (proofText params); BytesValue (proofId params)] in
  match metadata params with
  | Some m =>
      if ContractService.provided (metadata params)
      then args ++ [OptionalValue (Some m)]
      else args ++ [OptionalValue None]
  | None => args ++ [OptionalValue None]
  end.

(** The argument list [updateProof] builds. *)
Definition updateProof_args (params : UpdateProofParams) : list Arg :=
  let args := [BytesValue (upd_proofId params); BytesValue (newProofText params)] in
  match newMetadata params with
  | Some m =>
      if ContractService.provided (newMetadata params)
      then args ++ [OptionalValue (Some m)]
      else args ++ [OptionalValue None]
  | None => args ++ [OptionalValue None]
  end.

(** [queryResponse.isSuccess() && queryResponse.returnData.length > 0] *)
Definition has_data (queryResponse : QueryResponse) : Res bool :=
  if isSuccess queryResponse then
    match returnData queryResponse with
    | Some data => Returned (0 <? length data)%nat
    | None => Raised TypeError
    end
  else Returned false.

Section WithEnv.

Context (env : Env).

(** [data.field?.toString() || fallback] *)
Definition field_or (data : JsVal) (field fallback : string) : Res string :=
  v ← js_prop data field;
  if nullish v then mret fallback
  else
    s ← toString env v;
    mret (if String.eqb s EmptyString then fallback else s).

(** [parseProofData(data)] *)
Definition parseProofData (data : JsVal) : Res ContractService.ProofData :=
  text ← field_or data "proof_text" EmptyString;
  stamp ← field_or data "timestamp" "0";
  id ← field_or data "proof_id" EmptyString;
  meta ← field_or data "metadata" EmptyString;
  mret {| ContractService.pd_proof_text := text;
          ContractService.pd_timestamp := parseInt env stamp;
          ContractService.pd_proof_id := id;
          ContractService.pd_metadata := meta |}.

(** [getProof(userAddress, proofId)] *)
Definition getProof (userAddress proofId : string)
  : M (option ContractService.ProofData) :=
  try_catch
    (user ← lift (newAddress env (JStr userAddress));
     query ← lift (buildQuery env
                     {| q_func := "getProof"; q_args := [AddressValue user; BytesValue proofId] |});
     queryResponse ← external (EvQueryContract query) (queryContract env query);
     ok ← lift (has_data queryResponse);
     if (ok : bool) then
       result ← lift (parseQueryResponse env queryResponse);
       first ← lift (js_index result 0);
       data ← lift (parseProofData first);
       mret (Some data)
     else mret None)
    (fun error =>
       _ ← console_error "Error getting proof:";
       throw error).

(** [getUserProofs(userAddress)]; [results.map] needs an array. *)
Definition getUserProofs (userAddress : string)
  : M (list ContractService.ProofData) :=
  try_catch
    (user ← lift (newAddress env (JStr userAddress));
     query ← lift (buildQuery env
                     {| q_func := "getUserProofs"; q_args := [AddressValue user] |});
     queryResponse ← external (EvQueryContract query) (queryContract env query);
     ok ← lift (has_data queryResponse);
     if (ok : bool) then
       results ← lift (parseQueryResponse env queryResponse);
       match results with
       | JArr items => lift (mapM parseProofData items)
       | _ => throw TypeError
       end
     else mret [])
    (fun error =>
       _ ← console_error "Error getting user proofs:";
       throw error).

(** [result[0].toString()] *)
Definition first_toString (result : JsVal) : Res string :=
  first ← js_index result 0;
  ContractService.call_toString env first.

(** [proofExists(proofId)] *)
Definition proofExists (proofId : string) : M bool :=
  try_catch
    (query ← lift (buildQuery env
                     {| q_func := "proofExists"; q_args := [BytesValue proofId] |});
     queryResponse ← external (EvQueryContract query) (queryContract env query);
     ok ← lift (has_data queryResponse);
     if (ok : bool) then
       result ← lift (parseQueryResponse env queryResponse);
       text ← lift (first_toString result);
       mret (String.eqb text "true")
     else mret false)
    (fun error =>
       _ ← console_error "Error checking if proof exists:";
       throw error).

(** [getUserProofCount(userAddress)] *)
Definition getUserProofCount (userAddress : string) : M JsVal :=
  try_catch
    (user ← lift (newAddress env (JStr userAddress));
     query ← lift (buildQuery env
                     {| q_func := "getUserProofCount"; q_args := [AddressValue user] |});
     queryResponse ← external (EvQueryContract query) (queryContract env query);
     ok ← lift (has_data queryResponse);
     if (ok : bool) then
       result ← lift (parseQueryResponse env queryResponse);
       text ← lift (first_toString result);
       mret (parseInt env text)
     else mret (JNum 0))
    (fun error =>
       _ ← console_error "Error getting user proof count:";
       throw error).

(** [getTotalProofs()] *)
Definition getTotalProofs : M JsVal :=
  try_catch
    (query ← lift (buildQuery env
                     {| q_func := "getTotalProofs"; q_args := [] |});
     queryResponse ← external (EvQueryContract query) (queryContract env query);
     ok ← lift (has_data queryResponse);
     if (ok : bool) then
       result ← lift (parseQueryResponse env queryResponse);
       text ← lift (first_toString result);
       mret (parseInt env text)
     else mret (JNum 0))
    (fun error =>
       _ ← console_error "Error getting total proofs:";
       throw error).

(** [getProofOwner(proofId)] *)
Definition getProofOwner (proofId : string) : M (option string) :=
  try_catch
    (query ← lift (buildQuery env
                     {| q_func := "getProofOwner"; q_args := [BytesValue proofId] |});
     queryResponse ← external (EvQueryContract query) (queryContract env query);
     ok ← lift (has_data queryResponse);
     if (ok : bool) then
       result ← lift (parseQueryResponse env queryResponse);
       text ← lift (first_toString result);
       mret (Some text)
     else mret None)
    (fun error =>
       _ ← console_error "Error getting proof owner:";
       throw error).

(** [result.toString()] on an element of the decoded list. *)
Definition item_toString (result : JsVal) : Res string :=
  ContractService.call_toString env result.

(** [getUserProofIds(userAddress)]; [results.map] needs an array. *)
Definition getUserProofIds (userAddress : string) : M (list string) :=
  try_catch
    (user ← lift (newAddress env (JStr userAddress));
     query ← lift (buildQuery env
                     {| q_func := "getUserProofIds"; q_args := [AddressValue user] |});
     queryResponse ← external (EvQueryContract query) (queryContract env query);
     ok ← lift (has_data queryResponse);
     if (ok : bool) then
       results ← lift (parseQueryResponse env queryResponse);
       match results with
       | JArr items => lift (mapM item_toString items)
       | _ => throw TypeError
       end
     else mret [])
    (fun error =>
       _ ← console_error "Error getting user proof IDs:";
       throw error).

End WithEnv.

(** *** Validation of what the user types *)

(** A string of the validators is a sequence of code units; the ones
    modelled are those below 256. *)

Record ValidationResult : Type := {
  valid : bool;
  error : option string
}.

(** The white space [String.prototype.trim] strips, among the code units
    below 256: TAB, LF, VT, FF, CR, SP and NBSP. *)
Definition is_space (c : ascii) : bool :=
  let n := nat_of_ascii c in
  ((9 <=? n) && (n <=? 13) || (n =? 32) || (n =? 160))%nat.

Fixpoint trim_start (s : string) : string :=
  match s with
  | EmptyString => EmptyString
  | String c rest => if is_space c then trim_start rest else s
  end.

(** [s.trim()] *)
Definition trim (s : string) : string :=
  String.rev (trim_start (String.rev (trim_start s))).

(** The character class [[a-zA-Z0-9_-]]. *)
Definition is_id_char (c : ascii) : bool :=
  let n := nat_of_ascii c in
  ((97 <=? n) && (n <=? 122) || (65 <=? n) && (n <=? 90)
   || (48 <=? n) && (n <=? 57) || (n =? 95) || (n =? 45))%nat.

Fixpoint all_chars (test : ascii → bool) (s : string) : bool :=
  match s with
  | EmptyString => true
  | String c rest => test c && all_chars test rest
  end.

(** [/^[a-zA-Z0-9_-]+$/.test(s)] *)
Definition id_pattern (s : string) : bool :=
  negb (String.eqb s EmptyString) && all_chars is_id_char s.

(** [!s || s.trim().length === 0] *)
Definition is_blank (s : string) : bool :=
  String.eqb s EmptyString || (String.length (trim s) =? 0)%nat.

(** [validateProofId(proofId)] *)
Definition validateProofId (proofId : string) : ValidationResult :=
  if is_blank proofId then
    {| valid := false; error := Some "Proof ID cannot be empty" |}
  else if (100 <? String.length proofId)%nat then
    {| valid := false; error := Some "Proof ID cannot exceed 100 characters" |}
  else if negb (id_pattern proofId) then
    {| valid := false;
       error := Some "Proof ID can only contain alphanumeric characters, underscores, and hyphens" |}
  else {| valid := true; error := None |}.

(** [validateProofText(proofText)] *)
Definition validateProofText (proofText : string) : ValidationResult :=
  if is_blank proofText then
    {| valid := false; error := Some "Proof text cannot be empty" |}
  else if (500 <? String.length proofText)%nat then
    {| valid := false; error := Some "Proof text cannot exceed 500 characters" |}
  else {| valid := true; error := None |}.

End ModernContractService.


(** ** Observations and sample environments used in the statements *)

(** An [Error] with a message, or a thrown value that is not an [Error]
    (for which the services substitute their own text). *)
Definition speaks (e : Thrown) : Prop :=
  match e with
  | ErrorObj m => m ≠ EmptyString
  | NonError _ => True
  end.

Definition outspoken {A} (r : Res A) : Prop :=
  match r with
  | Raised e => speaks e
  | Returned _ => True
  end.

(** Backends and SDK that never hand out an empty address and never
    throw an [Error] whose message is empty. *)
Record well_behaved (env : Env) : Prop := {
  init_outspoken : ∀ id, outspoken (b_init (makeBackend env id));
  login_outspoken : ∀ id, outspoken (b_login (makeBackend env id));
  login_nonempty : ∀ id, b_login (makeBackend env id) ≠ Returned EmptyString;
  address_outspoken : ∀ v, outspoken (newAddress env v);
  sync_outspoken : ∀ a, outspoken (accountSync env a)
}.

(** Every query fails to produce a decoded value: the provider throws,
    or the response carries no data, or the parser throws. *)
Definition read_fails (env : Env) : Prop :=
  ∀ q, match queryContract env q with
       | Raised _ => True
       | Returned response =>
           ContractService.no_returnData response = true
           ∨ ∃ e, parseQueryResponse env response = Raised e
       end.

(** The provider throws [e] on every query. *)
Definition provider_down (env : Env) (e : Thrown) : Prop :=
  ∀ q, queryContract env q = Raised e.

(** The SDK accepts every address text and builds every query. *)
Definition sdk_builds (env : Env) : Prop :=
  (∀ s, ∃ a, newAddress env (JStr s) = Returned a)
  ∧ (∀ q, ∃ q', buildQuery env q = Returned q').

Definition sample_address : string :=
  "erd1qyu5wthldzr8wx5c9ucg8kjagg0jfs53s8nr3zpz3hypefsdd8ssycr6th".

(** A backend on which every capability succeeds. *)
Definition quiet_backend (id : string) : Backend :=
  {| b_id := id; b_init := Returned tt; b_login := Returned sample_address;
     b_signTransaction := fun _ => Returned tt; b_logout := Some (Returned tt) |}.

(** A backend whose [init] throws [new Error()], with no message. *)
Definition mute_backend (id : string) : Backend :=
  {| b_id := id; b_init := Raised (ErrorObj EmptyString);
     b_login := Returned sample_address;
     b_signTransaction := fun _ => Returned tt; b_logout := None |}.

(** A backend whose [logout] throws. *)
Definition stuck_backend (id : string) : Backend :=
  {| b_id := id; b_init := Returned tt; b_login := Returned sample_address;
     b_signTransaction := fun _ => Returned tt;
     b_logout := Some (Raised (ErrorObj "logout failed")) |}.

Definition quoted (s : string) : string :=
  String "034"%char (s +:+ String "034"%char EmptyString).

(** The text [connectWallet] persists for the sample session, connected
    at time 1000. *)
Definition sample_blob : string :=
  "{" +:+ quoted "providerId" +:+ ":" +:+ quoted "extension" +:+ ","
      +:+ quoted "address" +:+ ":" +:+ quoted sample_address +:+ ","
      +:+ quoted "connectedAt" +:+ ":1000}".

Definition sample_session : JsVal :=
  JObj [("providerId", JStr "extension"); ("address", JStr sample_address);
        ("connectedAt", JNum 1000)].

(** The same session, made through the web wallet. *)
Definition webwallet_blob : string :=
  "{" +:+ quoted "providerId" +:+ ":" +:+ quoted "webwallet" +:+ ","
      +:+ quoted "address" +:+ ":" +:+ quoted sample_address +:+ ","
      +:+ quoted "connectedAt" +:+ ":1000}".

Definition webwallet_session : JsVal :=
  JObj [("providerId", JStr "webwallet"); ("address", JStr sample_address);
        ("connectedAt", JNum 1000)].

(** [JSON.parse] on the texts the examples store; any other text is
    taken to be malformed. *)
Definition sample_parse (s : string) : Res JsVal :=
  if String.eqb s "null" then Returned JNull
  else if String.eqb s sample_blob then Returned sample_session
  else if String.eqb s webwallet_blob then Returned webwallet_session
  else Raised (ErrorObj "SyntaxError").

(** An environment for the examples: the backends given by [backend],
    an SDK that accepts what it is given, and a network on which queries
    fail and broadcasts succeed.  The one value the examples serialise
    is the sample session. *)
Definition sample_env (backend : string -> Backend) : Env :=
  {| JSON_parse := sample_parse;
     JSON_stringify := fun _ => sample_blob;
     toString := fun v => match v with
                          | JStr s => Returned s
                          | _ => Returned "[object Object]"
                          end;
     parseInt := fun _ => JNaN;
     stringOf := fun _ => "undefined";
     numberOf := fun _ => None;
     extensionInstalled := true;
     ledgerSupported := true;
     makeBackend := backend;
     newAddress := fun v => match v with
                            | JStr s => Returned s
                            | _ => Raised (ErrorObj "Invalid address")
                            end;
     accountSync := fun _ => Returned "0";
     contractCall := Returned;
     createQuery := Returned;
     buildQuery := Returned;
     queryContract := fun _ => Raised (ErrorObj "Network Error");
     parseQueryResponse := fun _ => Returned (JArr []);
     sendTransaction := fun _ => Returned "txhash" |}.

(** A world with nothing stored and no backend in memory, at clock
    [clock]. *)
Definition world_at (clock : Z) : World :=
  {| storage := ∅; currentProvider := None; now := clock;
     statusFeed := always_reports "pending"; trace := [] |}.

(** A world whose storage holds [blob] under [wallet_state], at clock
    [clock], with the signing backend [current] in memory. *)
Definition stored_world (blob : string) (clock : Z) (current : option Backend)
  : World :=
  {| storage := {[ "wallet_state" := blob ]}; currentProvider := current;
     now := clock; statusFeed := always_reports "pending"; trace := [] |}.

(** The sample environment with an SDK that accepts only addresses that
    start with "erd1". *)
Definition strict_env (backend : string -> Backend) : Env :=
  {| JSON_parse := sample_parse;
     JSON_stringify := fun _ => sample_blob;
     toString := toString (sample_env backend);
     parseInt := fun _ => JNaN;
     stringOf := fun _ => "undefined";
     numberOf := fun _ => None;
     extensionInstalled := false;
     ledgerSupported := false;
     makeBackend := backend;
     newAddress := fun v => match v with
                            | JStr s => if String.prefix "erd1" s then Returned s
                                        else Raised (ErrorObj "Invalid address")
                            | _ => Raised (ErrorObj "Invalid address")
                            end;
     accountSync := fun _ => Returned "1000000000000000000";
     contractCall := Returned;
     createQuery := Returned;
     buildQuery := Returned;
     queryContract := fun _ => Raised (ErrorObj "Network Error");
     parseQueryResponse := fun _ => Returned (JArr []);
     sendTransaction := fun _ => Returned "txhash" |}.

(** A backend whose [login] throws (the user closes the prompt). *)
Definition closing_backend (id : string) : Backend :=
  {| b_id := id; b_init := Returned tt;
     b_login := Raised (ErrorObj "Login cancelled");
     b_signTransaction := fun _ => Returned tt; b_logout := None |}.

(** A session stored by a release that knew a provider this one does
    not. *)
Definition foreign_blob : string :=
  "{" +:+ quoted "providerId" +:+ ":" +:+ quoted "metamask" +:+ ","
      +:+ quoted "address" +:+ ":" +:+ quoted sample_address +:+ ","
      +:+ quoted "connectedAt" +:+ ":1000}".

Definition foreign_session : JsVal :=
  JObj [("providerId", JStr "metamask"); ("address", JStr sample_address);
        ("connectedAt", JNum 1000)].

(** The sample environment with a [JSON.parse] that also knows
    [foreign_blob]. *)
Definition foreign_env (backend : string -> Backend) : Env :=
  {| JSON_parse := fun s => if String.eqb s foreign_blob
                            then Returned foreign_session else sample_parse s;
     JSON_stringify := fun _ => sample_blob;
     toString := toString (sample_env backend);
     parseInt := fun _ => JNaN;
     stringOf := fun _ => "undefined";
     numberOf := fun _ => None;
     extensionInstalled := true;
     ledgerSupported := true;
     makeBackend := backend;
     newAddress := newAddress (sample_env backend);
     accountSync := fun _ => Returned "0";
     contractCall := Returned;
     createQuery := Returned;
     buildQuery := Returned;
     queryContract := fun _ => Raised (ErrorObj "Network Error");
     parseQueryResponse := fun _ => Returned (JArr []);
     sendTransaction := fun _ => Returned "txhash" |}.

(** The text [connectWallet] persists for a session. *)
Definition session_text (env : Env) (providerId : JsVal) (a : string) (at_time : Z)
  : string :=
  JSON_stringify env
    (JObj [("providerId", providerId); ("address", JStr a);
           ("connectedAt", JNum at_time)]).

(** How often the contract was queried. *)
Fixpoint queries (t : list Event) : nat :=
  match t with
  | [] => 0
  | EvQueryContract _ :: t' => S (queries t')
  | _ :: t' => queries t'
  end.

(** The sample environment with a network that answers every query with
    one data item, which the parser decodes to [decoded]. *)
Definition answering_env (decoded : JsVal) : Env :=
  {| JSON_parse := sample_parse;
     JSON_stringify := fun _ => sample_blob;
     toString := toString (sample_env quiet_backend);
     parseInt := fun s => if String.eqb s "1700000000" then JNum 1700000000 else JNaN;
     stringOf := fun _ => "undefined";
     numberOf := fun _ => None;
     extensionInstalled := true;
     ledgerSupported := true;
     makeBackend := quiet_backend;
     newAddress := newAddress (sample_env quiet_backend);
     accountSync := fun _ => Returned "0";
     contractCall := Returned;
     createQuery := Returned;
     buildQuery := Returned;
     queryContract := fun _ => Returned {| returnData := Some ["AA=="];
                                           isSuccess := true |};
     parseQueryResponse := fun _ => Returned decoded;
     sendTransaction := fun _ => Returned "txhash" |}.

(** A decoded proof, and one that lacks its [proof_id]. *)
Definition sample_proof : JsVal :=
  JObj [("proof_text", JStr "T"); ("timestamp", JStr "1700000000");
        ("proof_id", JStr "X"); ("metadata", JStr "{}")].

Definition headless_proof : JsVal :=
  JObj [("proof_text", JStr "T"); ("timestamp", JStr "1700000000");
        ("metadata", JStr "{}")].

(** A backend that refuses to sign, throwing a bare string. *)
Definition refusing_backend (id : string) : Backend :=
  {| b_id := id; b_init := Returned tt; b_login := Returned sample_address;
     b_signTransaction := fun _ => Raised (NonError (JStr "denied"));
     b_logout := None |}.

(** A decoded proof that lacks one of the four fields the first
    service reads ([undefined] or [null] in its place). *)
Definition lacks_field (proofData : JsVal) : bool :=
  nullish (js_get proofData "proof_text")
  || nullish (js_get proofData "timestamp")
  || nullish (js_get proofData "proof_id")
  || nullish (js_get proofData "metadata").

(** A network that answers every query with a failed response. *)
Definition refusing_network : Env :=
  {| JSON_parse := sample_parse;
     JSON_stringify := fun _ => sample_blob;
     toString := toString (sample_env quiet_backend);
     parseInt := fun _ => JNaN;
     stringOf := fun _ => "undefined";
     numberOf := fun _ => None;
     extensionInstalled := true;
     ledgerSupported := true;
     makeBackend := quiet_backend;
     newAddress := newAddress (sample_env quiet_backend);
     accountSync := fun _ => Returned "0";
     contractCall := Returned;
     createQuery := Returned;
     buildQuery := Returned;
     queryContract := fun _ => Returned {| returnData := Some ["AA=="];
                                           isSuccess := false |};
     parseQueryResponse := fun _ => Raised (ErrorObj "cannot parse");
     sendTransaction := fun _ => Returned "txhash" |}.

(** ** The modern service: wallet and mutating calls *)

(** The modern [ContractService] keeps its own signing provider and
    talks to its own network provider; its mutating calls wait for the
    transaction to complete.  The instance and the calls that leave it
    are modelled on their own, beside the world of the first service. *)
Module ModernWrites.

Record DeploymentConfig : Type := {
  network : string;
  contractAddress : string;
  proxyUrl : string;
  chainId : string
}.

(** The transaction an interaction builds, with the nonce set on it. *)
Record Tx : Type := {
  t_func : string;
  t_args : list Arg;
  t_sender : string;
  t_gasLimit : Z;
  t_chainID : string;
  t_nonce : Z
}.

(** A signing provider of the SDK, by what its methods do. *)
Record SigningProvider : Type := {
  sp_type : string;
  sp_init : Res unit;
  sp_getAddress : Res string;
  sp_signTransaction : Tx → Res unit
}.

(** [Account]: the address and the nonce read from the network. *)
Record Account : Type := {
  acc_address : string;
  acc_nonce : Z
}.

(** The SDK and the network of the modern service, by their behaviour. *)
Record Sdk : Type := {
  provide : string → SigningProvider;           (* the provider constructors *)
  mkAddress : string → Res string;              (* new Address(address) *)
  getAccount : string → Res Z;                  (* provider.getAccount: the nonce *)
  methodsExplicit : string → list Arg → Res unit; (* contract.methodsExplicit.f(args) *)
  sendTx : Tx → Res string;                     (* provider.sendTransaction *)
  awaitCompleted : string → Res unit            (* TransactionWatcher.awaitCompleted *)
}.

(** The calls that leave the service, newest first. *)
Inductive Call : Type :=
| CallInit (providerType : string)
| CallGetAddress
| CallGetAccount (address : string)
| CallSign (t : Tx)
| CallSend (t : Tx)
| CallAwaitCompleted (txHash : string)
| CallConsoleLog (text : string)
| CallConsoleError (label : string).

(** The instance: its [walletProvider] field, and the calls made. *)
Record Service : Type := {
  walletProvider : option SigningProvider;
  calls : list Call
}.

Definition S (A : Type) : Type := Service → Res A * Service.

#[global] Instance S_ret : MRet S := fun A a sv => (Returned a, sv).
#[global] Instance S_bind : MBind S := fun A B f c sv =>
  match c sv with
  | (Returned a, sv') => f a sv'
  | (Raised e, sv') => (Raised e, sv')
  end.

Definition raise {A} (e : Thrown) : S A := fun sv => (Raised e, sv).

(** [try { body } catch (error) { handler }] *)
Definition attempt {A} (body : S A) (handler : Thrown → S A) : S A :=
  fun sv =>
    match body sv with
    | (Returned a, sv') => (Returned a, sv')
    | (Raised e, sv') => handler e sv'
    end.

(** An outside call, recorded. *)
Definition call {A} (c : Call) (r : Res A) : S A :=
  fun sv => (r, {| walletProvider := walletProvider sv; calls := c :: calls sv |}).

Definition pure_step {A} (r : Res A) : S A := fun sv => (r, sv).

Definition set_walletProvider (p : SigningProvider) : S unit :=
  fun sv => (Returned tt, {| walletProvider := Some p; calls := calls sv |}).

Definition get_walletProvider : S (option SigningProvider) :=
  fun sv => (Returned (walletProvider sv), sv).

Section WithSdk.

Context (sdk : Sdk) (config : DeploymentConfig).

(** [this.walletProvider = ...; await this.walletProvider.init();] *)
Definition install (providerType : string) : S unit :=
  let p := provide sdk providerType in
  _ ← set_walletProvider p;
  call (CallInit providerType) (sp_init p).

(** [connectWallet(providerType)] *)
Definition connectWallet (providerType : string) : S unit :=
  attempt
    (_ ← (if String.eqb providerType "extension" then install "extension"
          else if String.eqb providerType "webwallet" then
            set_walletProvider (provide sdk "webwallet")
          else if String.eqb providerType "walletconnect" then
            install "walletconnect"
          else if String.eqb providerType "hardware" then install "hardware"
          else raise (ErrorObj ("Unsupported wallet provider: " +:+ providerType)));
     call (CallConsoleLog ("Connected to " +:+ providerType +:+ " wallet provider"))
       (Returned tt))
    (fun error =>
       _ ← call (CallConsoleError "Failed to connect wallet:") (Returned tt);
       raise error).

(** [getUserAddress()] *)
Definition getUserAddress : S string :=
  current ← get_walletProvider;
  match current with
  | None => raise (ErrorObj "Wallet not connected")
  | Some p => call CallGetAddress (sp_getAddress p)
  end.

(** [getUserAccount()] *)
Definition getUserAccount : S Account :=
  address ← getUserAddress;
  checked ← pure_step (mkAddress sdk address);
  nonce ← call (CallGetAccount checked) (getAccount sdk checked);
  mret {| acc_address := checked; acc_nonce := nonce |}.

(** [waitForTransaction(txHash)] *)
Definition waitForTransaction (txHash : string) : S unit :=
  call (CallAwaitCompleted txHash) (awaitCompleted sdk txHash).

(** [await this.walletProvider.signTransaction(transaction)] *)
Definition sign (transaction : Tx) : S unit :=
  signer ← get_walletProvider;
  match signer with
  | Some p => call (CallSign transaction) (sp_signTransaction p transaction)
  | None => raise TypeError
  end.

(** [certifyAction(params)] *)
Definition certifyAction (params : ModernContractService.CertifyActionParams)
  : S string :=
  current ← get_walletProvider;
  match current with
  | None => raise (ErrorObj "Wallet not connected")
  | Some _ =>
      attempt
        (userAccount ← getUserAccount;
         let args := ModernContractService.certifyAction_args params in
         _ ← pure_step (methodsExplicit sdk "certifyAction" args);
         let transaction :=
           {| t_func := "certifyAction"; t_args := args;
              t_sender := acc_address userAccount; t_gasLimit := 50000000;
              t_chainID := chainId config; t_nonce := acc_nonce userAccount |} in
         _ ← sign transaction;
         txHash ← call (CallSend transaction) (sendTx sdk transaction);
         _ ← waitForTransaction txHash;
         mret txHash)
        (fun error =>
           _ ← call (CallConsoleError "Error certifying action:") (Returned tt);
           raise error)
  end.

(** [updateProof(params)] *)
Definition updateProof (params : ModernContractService.UpdateProofParams)
  : S string :=
  current ← get_walletProvider;
  match current with
  | None => raise (ErrorObj "Wallet not connected")
  | Some _ =>
      attempt
        (userAccount ← getUserAccount;
         let args := ModernContractService.updateProof_args params in
         _ ← pure_step (methodsExplicit sdk "updateProof" args);
         let transaction :=
           {| t_func := "updateProof"; t_args := args;
              t_sender := acc_address userAccount; t_gasLimit := 30000000;
              t_chainID := chainId config; t_nonce := acc_nonce userAccount |} in
         _ ← sign transaction;
         txHash ← call (CallSend transaction) (sendTx sdk transaction);
         _ ← waitForTransaction txHash;
         mret txHash)
        (fun error =>
           _ ← call (CallConsoleError "Error updating proof:") (Returned tt);
           raise error)
  end.

End WithSdk.

(** A provider on which everything succeeds, and an SDK around it whose
    watcher answers [watched]. *)
Definition willing (providerType : string) : SigningProvider :=
  {| sp_type := providerType; sp_init := Returned tt;
     sp_getAddress := Returned "erd1qyu5wthldzr8wx5c9ucg8kjagg0jfs53s8nr3zpz3hypefsdd8ssycr6th";
     sp_signTransaction := fun _ => Returned tt |}.

(** A provider whose [init] throws. *)
Definition unwilling (providerType : string) : SigningProvider :=
  {| sp_type := providerType; sp_init := Raised (ErrorObj "Extension locked");
     sp_getAddress := Returned "erd1qyu5wthldzr8wx5c9ucg8kjagg0jfs53s8nr3zpz3hypefsdd8ssycr6th";
     sp_signTransaction := fun _ => Returned tt |}.

Definition sample_sdk (provider : string → SigningProvider) (watched : Res unit)
  : Sdk :=
  {| provide := provider; mkAddress := Returned; getAccount := fun _ => Returned 7;
     methodsExplicit := fun _ _ => Returned tt;
     sendTx := fun _ => Returned "txhash"; awaitCompleted := fun _ => watched |}.

Definition devnet (address : string) : DeploymentConfig :=
  {| network := "devnet"; contractAddress := address;
     proxyUrl := "https://devnet-gateway.multiversx.com"; chainId := "D" |}.

(** A service just constructed. *)
Definition fresh : Service := {| walletProvider := None; calls := [] |}.

End ModernWrites.

(** * Theorems *)

(** ** Waiting for a transaction *)

Section WaitForTransaction.

Import ContractService.

Variable txHash : string.
Variable maxRetries : Z.

#[local] Abbreviation idle_step := (ContractService.idle_step txHash).
#[local] Abbreviation idle_trace := (ContractService.idle_trace txHash).

Lemma trace_idle_steps n w :
  trace (Nat.iter n idle_step w) = idle_trace n ++ trace w.
Proof.
  induction n as [|n IH]; simpl; [done|]. by rewrite IH.
Qed.

Lemma statusFeed_idle_steps n w k :
  statusFeed (Nat.iter n idle_step w) k = statusFeed w (n + k)%nat.
Proof.
  revert k. induction n as [|n IH]; intros k; simpl; [done|].
  rewrite IH. f_equal. lia.
Qed.

Lemma polls_idle_trace n : polls (idle_trace n) = n.
Proof. induction n; simpl; congruence. Qed.

Lemma sleeps_idle_trace n : sleeps (idle_trace n) = n.
Proof. induction n; simpl; congruence. Qed.

Lemma polls_app t1 t2 : polls (t1 ++ t2) = (polls t1 + polls t2)%nat.
Proof.
  induction t1 as [|ev t1 IH]; simpl; [done|].
  destruct ev; simpl; rewrite IH; lia.
Qed.

Lemma sleeps_app t1 t2 : sleeps (t1 ++ t2) = (sleeps t1 + sleeps t2)%nat.
Proof.
  induction t1 as [|ev t1 IH]; simpl; [done|].
  destruct ev; simpl; rewrite IH; lia.
Qed.

(** The body on a poll that is not a success, anywhere but in the last
    turn: whatever went wrong is caught, the timer runs, the loop goes on. *)
Lemma body_continues i w :
  i ≠ maxRetries - 1 →
  reports_success (statusFeed w 0%nat txHash) = false →
  waitForTransaction_body txHash maxRetries i w = (Returned Next, idle_step w).
Proof.
  intros Hi Hs.
  unfold waitForTransaction_body, try_catch, getTransactionStatus, mbind, M_bind.
  destruct (statusFeed w 0%nat txHash) as [st|e] eqn:Hfeed; simpl in *.
  - rewrite Hs. destruct (is_failure (status st)); simpl.
    + destruct (Z.eqb_spec i (maxRetries - 1)); [done|reflexivity].
    + reflexivity.
  - destruct (Z.eqb_spec i (maxRetries - 1)); [done|reflexivity].
Qed.

(** The body on a non-terminal status, in any turn. *)
Lemma body_non_terminal i w :
  non_terminal (statusFeed w 0%nat txHash) = true →
  waitForTransaction_body txHash maxRetries i w = (Returned Next, idle_step w).
Proof.
  intros Hn.
  unfold waitForTransaction_body, try_catch, getTransactionStatus, mbind, M_bind.
  destruct (statusFeed w 0%nat txHash) as [st|e]; simpl in *; [|done].
  apply andb_prop in Hn as [H1 H2].
  apply negb_true_iff in H1, H2. by rewrite H1, H2.
Qed.

(** The body on a success status: [return status], nothing after the poll. *)
Lemma body_success i w st :
  statusFeed w 0%nat txHash = Returned st →
  is_success (status st) = true →
  waitForTransaction_body txHash maxRetries i w =
    (Returned (Return st), next_status (emit (EvGetTransactionStatus txHash) w)).
Proof.
  intros Hfeed Hs.
  unfold waitForTransaction_body, try_catch, getTransactionStatus, mbind, M_bind.
  rewrite Hfeed. simpl. by rewrite Hs.
Qed.

(** Every turn polls exactly once, whatever the network answers. *)
Lemma body_one_poll i w :
  ∃ new, trace (waitForTransaction_body txHash maxRetries i w).2 = new ++ trace w
         ∧ polls new = 1%nat.
Proof.
  unfold waitForTransaction_body, try_catch, getTransactionStatus, mbind, M_bind.
  destruct (statusFeed w 0%nat txHash) as [st|e]; simpl.
  - destruct (is_success (status st)); simpl.
    { by exists [EvGetTransactionStatus txHash]. }
    destruct (is_failure (status st)); simpl.
    + destruct (i =? maxRetries - 1); simpl.
      * by exists [EvGetTransactionStatus txHash].
      * by exists [EvSetTimeout 2000; EvGetTransactionStatus txHash].
    + by exists [EvSetTimeout 2000; EvGetTransactionStatus txHash].
  - destruct (i =? maxRetries - 1); simpl.
    + by exists [EvGetTransactionStatus txHash].
    + by exists [EvSetTimeout 2000; EvGetTransactionStatus txHash].
Qed.

Lemma loop_polls_bounded remaining i w :
  ∃ new, trace (waitForTransaction_loop txHash maxRetries remaining i w).2
           = new ++ trace w
         ∧ (polls new ≤ remaining)%nat.
Proof.
  revert i w. induction remaining as [|r IH]; intros i w; simpl.
  { exists []. split; [done|simpl; lia]. }
  destruct (body_one_poll i w) as (new & Hnew & Hp).
  unfold mbind, M_bind.
  destruct (waitForTransaction_body txHash maxRetries i w) as [[[st|]|e] w1];
    simpl in *.
  - exists new. split; [done|lia].
  - destruct (IH (i + 1) w1) as (new' & Hnew' & Hp').
    exists (new' ++ new). rewrite Hnew', Hnew, polls_app.
    split; [by rewrite app_assoc|lia].
  - exists new. split; [done|lia].
Qed.

Lemma loop_all_non_terminal remaining i w :
  (∀ k, (k < remaining)%nat → non_terminal (statusFeed w k txHash) = true) →
  waitForTransaction_loop txHash maxRetries remaining i w =
    (Raised (ErrorObj "Transaction timeout"), Nat.iter remaining idle_step w).
Proof.
  revert i w. induction remaining as [|r IH]; intros i w Hall; [done|].
  cbn [waitForTransaction_loop]. unfold mbind, M_bind.
  rewrite body_non_terminal by (apply Hall; lia).
  rewrite IH, <- Nat.iter_succ_r; [done|].
  intros k Hk. cbn. apply Hall. lia.
Qed.

Lemma loop_first_success k : ∀ remaining i w st,
  (k < remaining)%nat →
  i + Z.of_nat remaining = maxRetries →
  statusFeed w k txHash = Returned st →
  is_success (status st) = true →
  (∀ j, (j < k)%nat → reports_success (statusFeed w j txHash) = false) →
  waitForTransaction_loop txHash maxRetries remaining i w =
    (Returned st,
     next_status (emit (EvGetTransactionStatus txHash) (Nat.iter k idle_step w))).
Proof.
  induction k as [|k IH]; intros remaining i w st Hk Hi Hfeed Hs Hbefore;
    (destruct remaining as [|r]; [lia|]);
    cbn [waitForTransaction_loop]; unfold mbind, M_bind.
  - by rewrite (body_success i w st).
  - rewrite body_continues; [|lia|apply Hbefore; lia].
    rewrite (IH r (i + 1) (idle_step w) st), <- Nat.iter_succ_r;
      [done|lia|lia|done|done|].
    intros j Hj. cbn. apply Hbefore. lia.
Qed.

End WaitForTransaction.

(** C3: for every hash and every [maxRetries >= 1], when each of the
    first [maxRetries] polls reports a status that is neither
    executed/success nor failed/invalid, [waitForTransaction] raises the
    timeout error after exactly [maxRetries] polls (each followed by the
    two-second timer); and whatever the network answers, a call never
    polls more than [maxRetries] times. *)
Theorem waitForTransaction_timeout_after_maxRetries
    (txHash : string) (maxRetries : Z) (w : World) :
  1 ≤ maxRetries →
  (∀ k, Z.of_nat k < maxRetries →
        ContractService.non_terminal (statusFeed w k txHash) = true) →
  let run := ContractService.waitForTransaction txHash maxRetries w in
  run.1 = Raised (ErrorObj "Transaction timeout")
  ∧ trace run.2 = ContractService.idle_trace txHash (Z.to_nat maxRetries) ++ trace w
  ∧ Z.of_nat (polls (ContractService.idle_trace txHash (Z.to_nat maxRetries)))
      = maxRetries
  ∧ (∀ w0 : World, ∃ new,
        trace (ContractService.waitForTransaction txHash maxRetries w0).2
          = new ++ trace w0
        ∧ Z.of_nat (polls new) ≤ maxRetries).
Proof.
  intros Hmax Hall run. subst run. unfold ContractService.waitForTransaction.
  rewrite loop_all_non_terminal by (intros k Hk; apply Hall; lia).
  cbn [fst snd]. rewrite trace_idle_steps, polls_idle_trace.
  repeat split; [lia|].
  intros w0.
  destruct (loop_polls_bounded txHash maxRetries (Z.to_nat maxRetries) 0 w0)
    as (new & Hnew & Hle).
  exists new. split; [done|lia].
Qed.

Lemma waitForTransaction_timeout_after_maxRetries_witness :
  let run := ContractService.waitForTransaction "tx" 3
               (initial_world (always_reports "pending")) in
  run.1 = Raised (ErrorObj "Transaction timeout")
  ∧ trace run.2 = ContractService.idle_trace "tx" 3 ++ []
  ∧ Z.of_nat (polls (ContractService.idle_trace "tx" 3)) = 3
  ∧ (∀ w0 : World, ∃ new,
        trace (ContractService.waitForTransaction "tx" 3 w0).2 = new ++ trace w0
        ∧ Z.of_nat (polls new) ≤ 3).
Proof.
  apply (waitForTransaction_timeout_after_maxRetries "tx" 3
           (initial_world (always_reports "pending"))).
  - lia.
  - intros k _. reflexivity.
Defined.

(** C6: for every hash, when the poll number [k] (counted from 0, within
    the retry budget) is the first one to report executed/success,
    [waitForTransaction] returns that status object on that poll: the
    poll is the last event of the call, after [k] idle turns, so no poll
    and no timer follows it; the call made [k + 1] polls and set [k]
    timers. *)
Theorem waitForTransaction_returns_on_first_success
    (txHash : string) (maxRetries : Z) (w : World) (k : nat)
    (st : TransactionStatus) :
  Z.of_nat k < maxRetries →
  statusFeed w k txHash = Returned st →
  ContractService.is_success (status st) = true →
  (∀ j, (j < k)%nat →
        ContractService.reports_success (statusFeed w j txHash) = false) →
  let run := ContractService.waitForTransaction txHash maxRetries w in
  run.1 = Returned st
  ∧ trace run.2 = EvGetTransactionStatus txHash
                    :: ContractService.idle_trace txHash k ++ trace w
  ∧ polls (trace run.2) = (S k + polls (trace w))%nat
  ∧ sleeps (trace run.2) = (k + sleeps (trace w))%nat.
Proof.
  intros Hk Hfeed Hs Hbefore run. subst run.
  unfold ContractService.waitForTransaction.
  rewrite (loop_first_success txHash maxRetries k (Z.to_nat maxRetries) 0 w st)
    by (done || lia).
  cbn [fst snd emit next_status trace].
  rewrite trace_idle_steps. repeat split.
  - cbn [polls]. by rewrite polls_app, polls_idle_trace.
  - cbn [sleeps]. by rewrite sleeps_app, sleeps_idle_trace.
Qed.

Lemma waitForTransaction_returns_on_first_success_witness :
  let run := ContractService.waitForTransaction "tx" 10
               (initial_world (reports_then "pending" "executed")) in
  run.1 = Returned {| status := "executed" |}
  ∧ trace run.2 = EvGetTransactionStatus "tx"
                    :: ContractService.idle_trace "tx" 1 ++ []
  ∧ polls (trace run.2) = (2 + 0)%nat
  ∧ sleeps (trace run.2) = (1 + 0)%nat.
Proof.
  apply (waitForTransaction_returns_on_first_success "tx" 10
           (initial_world (reports_then "pending" "executed")) 1
           {| status := "executed" |}).
  - lia.
  - reflexivity.
  - reflexivity.
  - intros j Hj. assert (j = 0%nat) as -> by lia. reflexivity.
Defined.

(** C1 (the code departs from it): a poll that reports "failed" in a
    turn that is not the last one does not end the call.  The error
    thrown for it is caught by the loop's own handler, the timer runs
    and the next poll is made; here that poll reports "success" and the
    call returns normally. *)
Theorem waitForTransaction_failed_poll_is_retried :
  let run := ContractService.waitForTransaction "tx" 3
               (initial_world (reports_then "failed" "success")) in
  ContractService.reports_failure
    (statusFeed (initial_world (reports_then "failed" "success")) 0%nat "tx") = true
  ∧ run.1 = Returned {| status := "success" |}
  ∧ trace run.2 = [EvGetTransactionStatus "tx"; EvSetTimeout 2000;
                   EvGetTransactionStatus "tx"].
Proof. repeat split. Qed.

(** ** Disconnecting *)

(** C8: whatever the state before and whatever the active backend's
    [logout] does (absent, succeeding or throwing), [disconnectWallet]
    returns, and after it the in-memory provider is null and the
    [wallet_state] key is gone from storage. *)
Theorem disconnectWallet_always_clears (w : World) :
  let run := WalletService.disconnectWallet w in
  run.1 = Returned tt
  ∧ currentProvider run.2 = None
  ∧ storage run.2 !! "wallet_state" = None.
Proof.
  unfold WalletService.disconnectWallet, try_finally, try_catch,
    WalletService.getCurrentProvider, mbind, M_bind.
  destruct (currentProvider w) as [p|]; cbn.
  - destruct (b_logout p) as [[[]|e]|]; cbn;
      repeat split; apply lookup_delete_eq.
  - repeat split; apply lookup_delete_eq.
Qed.

(** A backend whose [logout] throws is forgotten all the same; the
    failure only reaches the console. *)
Example disconnectWallet_logout_throws :
  let run := WalletService.disconnectWallet
               (stored_world sample_blob 5000 (Some (stuck_backend "extension"))) in
  run.1 = Returned tt
  ∧ currentProvider run.2 = None
  ∧ storage run.2 !! "wallet_state" = None
  ∧ trace run.2 = [EvConsoleError "Wallet disconnect error:";
                   EvProviderLogout "extension"].
Proof. repeat split. Qed.

(** ** The argument lists of the mutating calls *)

Lemma createProof_args_shape (request : ContractService.CreateProofRequest) :
  ContractService.createProof_args request =
    [StringValue (ContractService.proof_text request);
     StringValue (ContractService.proof_id request)]
    ++ match ContractService.metadata request with
       | Some m => if ContractService.provided (Some m) then [StringValue m] else []
       | None => []
       end.
Proof.
  unfold ContractService.createProof_args.
  destruct (ContractService.metadata request) as [m|]; [|done].
  destruct (ContractService.provided (Some m)); [done|by rewrite app_nil_r].
Qed.

Lemma updateProof_args_shape (request : ContractService.UpdateProofRequest) :
  ContractService.updateProof_args request =
    [StringValue (ContractService.upd_proof_id request);
     StringValue (ContractService.new_proof_text request)]
    ++ match ContractService.new_metadata request with
       | Some m => if ContractService.provided (Some m) then [StringValue m] else []
       | None => []
       end.
Proof.
  unfold ContractService.updateProof_args.
  destruct (ContractService.new_metadata request) as [m|]; [|done].
  destruct (ContractService.provided (Some m)); [done|by rewrite app_nil_r].
Qed.

(** C9, as the code has it: the first service's [createProof] and
    [updateProof] build the two required arguments and append the
    metadata as a third one exactly when it is provided (present and not
    empty), so two entries when it is absent; the modern service's
    [certifyAction] and [updateProof] always build three entries, the
    third an optional value that holds the metadata when it is provided
    and is empty otherwise. *)
Theorem mutation_argument_lists
    (request : ContractService.CreateProofRequest)
    (update : ContractService.UpdateProofRequest)
    (params : ModernContractService.CertifyActionParams)
    (changes : ModernContractService.UpdateProofParams) :
  (ContractService.createProof_args request =
     [StringValue (ContractService.proof_text request);
      StringValue (ContractService.proof_id request)]
     ++ match ContractService.metadata request with
        | Some m => if ContractService.provided (Some m) then [StringValue m] else []
        | None => []
        end
   ∧ length (ContractService.createProof_args request) =
       if ContractService.provided (ContractService.metadata request)
       then 3%nat else 2%nat)
  ∧ (ContractService.updateProof_args update =
       [StringValue (ContractService.upd_proof_id update);
        StringValue (ContractService.new_proof_text update)]
       ++ match ContractService.new_metadata update with
          | Some m => if ContractService.provided (Some m) then [StringValue m] else []
          | None => []
          end
     ∧ length (ContractService.updateProof_args update) =
         if ContractService.provided (ContractService.new_metadata update)
         then 3%nat else 2%nat)
  ∧ ModernContractService.certifyAction_args params =
      [BytesValue (ModernContractService.proofText params);
       BytesValue (ModernContractService.proofId params);
       OptionalValue
         (if ContractService.provided (ModernContractService.metadata params)
          then ModernContractService.metadata params else None)]
  ∧ ModernContractService.updateProof_args changes =
      [BytesValue (ModernContractService.upd_proofId changes);
       BytesValue (ModernContractService.newProofText changes);
       OptionalValue
         (if ContractService.provided (ModernContractService.newMetadata changes)
          then ModernContractService.newMetadata changes else None)].
Proof.
  split; [|split; [|split]].
  - rewrite createProof_args_shape. split; [done|].
    destruct (ContractService.metadata request) as [m|]; [|done].
    by destruct (ContractService.provided (Some m)).
  - rewrite updateProof_args_shape. split; [done|].
    destruct (ContractService.new_metadata update) as [m|]; [|done].
    by destruct (ContractService.provided (Some m)).
  - unfold ModernContractService.certifyAction_args.
    destruct (ModernContractService.metadata params) as [m|]; [|done].
    by destruct (ContractService.provided (Some m)).
  - unfold ModernContractService.updateProof_args.
    destruct (ModernContractService.newMetadata changes) as [m|]; [|done].
    by destruct (ContractService.provided (Some m)).
Qed.

(** C9 as stated fails on the modern service: with the metadata absent,
    [certifyAction] still builds three arguments. *)
Lemma certifyAction_args_without_metadata :
  let args := ModernContractService.certifyAction_args
                {| ModernContractService.proofText := "T";
                   ModernContractService.proofId := "X";
                   ModernContractService.metadata := None |} in
  args = [BytesValue "T"; BytesValue "X"; OptionalValue None]
  ∧ length args ≠ 2%nat.
Proof. split; [reflexivity|discriminate]. Qed.

(** ** The connected check of the mutating calls *)

Lemma getCurrentWalletState_returns (env : Env) (w : World) :
  ∃ ws, (WalletService.getCurrentWalletState env w).1 = Returned ws
        ∧ trace (WalletService.getCurrentWalletState env w).2 = trace w.
Proof.
  unfold WalletService.getCurrentWalletState, getItem, try_catch, lift, removeItem,
    mbind, M_bind, mret, M_ret.
  destruct (storage w !! "wallet_state") as [s|]; cbn; [|by eexists].
  destruct (String.eqb s EmptyString); cbn; [by eexists|].
  destruct (JSON_parse env s) as [parsed|e]; cbn; [|by eexists].
  destruct (js_prop parsed "providerId") as [providerId|e]; cbn; [|by eexists].
  destruct (js_prop parsed "address") as [address|e]; cbn; by eexists.
Qed.

(** C5: when the current wallet session is disconnected ([isConnected]
    false, or the address absent or empty), [createProof] and
    [updateProof] throw "Wallet not connected" and nothing has left the
    program: the trace is the one before the call (no query, no signing,
    no broadcast). *)
Theorem mutations_fail_fast_when_disconnected
    (env : Env) (request : ContractService.CreateProofRequest)
    (update : ContractService.UpdateProofRequest)
    (w w1 : World) (ws : WalletService.WalletState) :
  WalletService.getCurrentWalletState env w = (Returned ws, w1) →
  WalletService.isConnected ws = false
  ∨ truthy (WalletService.address ws) = false →
  ContractService.createProof env request w
    = (Raised (ErrorObj "Wallet not connected"), w1)
  ∧ ContractService.updateProof env update w
    = (Raised (ErrorObj "Wallet not connected"), w1)
  ∧ trace w1 = trace w.
Proof.
  intros Hstate Hoff.
  assert (negb (WalletService.isConnected ws)
          || negb (truthy (WalletService.address ws)) = true) as Hcheck.
  { destruct Hoff as [-> | ->]; [done|apply orb_true_r]. }
  unfold ContractService.createProof, ContractService.updateProof, mbind, M_bind.
  rewrite Hstate, Hcheck. repeat split.
  destruct (getCurrentWalletState_returns env w) as (ws' & _ & Htrace).
  by rewrite Hstate in Htrace.
Qed.

Lemma mutations_fail_fast_when_disconnected_witness :
  let env := sample_env quiet_backend in
  let w := initial_world (always_reports "pending") in
  ContractService.createProof env
    {| ContractService.proof_text := "T"; ContractService.proof_id := "X";
       ContractService.metadata := None |} w
    = (Raised (ErrorObj "Wallet not connected"), w)
  ∧ ContractService.updateProof env
      {| ContractService.upd_proof_id := "X"; ContractService.new_proof_text := "T2";
         ContractService.new_metadata := None |} w
    = (Raised (ErrorObj "Wallet not connected"), w)
  ∧ trace w = trace w.
Proof.
  intros env w.
  apply (mutations_fail_fast_when_disconnected env _ _ w w WalletService.disconnected).
  - reflexivity.
  - left. reflexivity.
Defined.

(** ** The persisted session *)

(** What [getCurrentWalletState] answers for a stored text that parses
    to a value other than [null]. *)
Lemma getCurrentWalletState_parsed (env : Env) (w : World) (s : string)
    (parsed : JsVal) :
  storage w !! "wallet_state" = Some s →
  s ≠ EmptyString →
  JSON_parse env s = Returned parsed →
  nullish parsed = false →
  WalletService.getCurrentWalletState env w =
    (Returned
       {| WalletService.isConnected := true;
          WalletService.address := js_get parsed "address";
          WalletService.balance := None;
          WalletService.provider :=
            WalletService.find_provider env (js_get parsed "providerId");
          WalletService.isLoading := false;
          WalletService.error := None |}, w).
Proof.
  intros Hstored Hs Hparse Hval.
  unfold WalletService.getCurrentWalletState, getItem, try_catch, lift,
    mbind, M_bind, mret, M_ret, WalletService.no_item.
  rewrite Hstored. cbn.
  destruct (String.eqb_spec s EmptyString); [done|].
  rewrite Hparse. cbn. unfold js_get.
  destruct parsed; try discriminate; reflexivity.
Qed.

(** C10, as the code has it: when the stored [wallet_state] text exists,
    is not empty and parses to a value other than [null],
    [getCurrentWalletState] answers [isConnected = true] with that
    value's [address], and leaves the world as it was: the in-memory
    provider is not consulted.  So with no provider in memory and a
    stored address that is truthy and accepted by the SDK, [createProof]
    passes its connected check and then fails with "No wallet
    connected", the error of [signAndSendTransaction]. *)
Theorem getCurrentWalletState_ignores_provider
    (env : Env) (w : World) (s : string) (parsed : JsVal) :
  storage w !! "wallet_state" = Some s →
  s ≠ EmptyString →
  JSON_parse env s = Returned parsed →
  nullish parsed = false →
  WalletService.getCurrentWalletState env w =
    (Returned
       {| WalletService.isConnected := true;
          WalletService.address := js_get parsed "address";
          WalletService.balance := None;
          WalletService.provider :=
            WalletService.find_provider env (js_get parsed "providerId");
          WalletService.isLoading := false;
          WalletService.error := None |}, w)
  ∧ (∀ (request : ContractService.CreateProofRequest) (caller : string)
       (transaction : Transaction),
       currentProvider w = None →
       truthy (js_get parsed "address") = true →
       newAddress env (js_get parsed "address") = Returned caller →
       contractCall env
         {| tx_func := "certify_action";
            tx_args := ContractService.createProof_args request;
            tx_gasLimit := 20000000; tx_caller := caller |} = Returned transaction →
       ContractService.createProof env request w =
         (Raised (ErrorObj "No wallet connected"),
          emit (EvConsoleError "Create proof error:") w)).
Proof.
  intros Hstored Hs Hparse Hval.
  pose proof (getCurrentWalletState_parsed env w s parsed Hstored Hs Hparse Hval)
    as Hstate.
  split; [exact Hstate|].
  intros request caller transaction Hnone Haddr Hcaller Hcall.
  unfold ContractService.createProof, mbind, M_bind.
  rewrite Hstate. cbn [WalletService.isConnected WalletService.address negb orb].
  rewrite Haddr. cbn [negb].
  unfold try_catch, lift, mbind, M_bind, WalletService.signAndSendTransaction,
    WalletService.getCurrentProvider, mbind, M_bind.
  rewrite Hcaller, Hcall, Hnone. reflexivity.
Qed.

Lemma getCurrentWalletState_ignores_provider_witness :
  let env := sample_env quiet_backend in
  let w := stored_world sample_blob 5000 None in
  WalletService.getCurrentWalletState env w =
    (Returned
       {| WalletService.isConnected := true;
          WalletService.address := js_get sample_session "address";
          WalletService.balance := None;
          WalletService.provider :=
            WalletService.find_provider env (js_get sample_session "providerId");
          WalletService.isLoading := false;
          WalletService.error := None |}, w)
  ∧ (∀ (request : ContractService.CreateProofRequest) (caller : string)
       (transaction : Transaction),
       currentProvider w = None →
       truthy (js_get sample_session "address") = true →
       newAddress env (js_get sample_session "address") = Returned caller →
       contractCall env
         {| tx_func := "certify_action";
            tx_args := ContractService.createProof_args request;
            tx_gasLimit := 20000000; tx_caller := caller |} = Returned transaction →
       ContractService.createProof env request w =
         (Raised (ErrorObj "No wallet connected"),
          emit (EvConsoleError "Create proof error:") w)).
Proof.
  intros env w.
  apply (getCurrentWalletState_ignores_provider env w sample_blob sample_session).
  - reflexivity.
  - discriminate.
  - reflexivity.
  - reflexivity.
Defined.

(** C10 as stated fails on a stored text that parses as JSON to [null]:
    the destructuring throws, the handler removes the key and the answer
    is the disconnected state. *)
Lemma getCurrentWalletState_null_blob :
  let env := sample_env quiet_backend in
  let w := stored_world "null" 5000 None in
  storage w !! "wallet_state" = Some "null"
  ∧ JSON_parse env "null" = Returned JNull
  ∧ (WalletService.getCurrentWalletState env w).1
      = Returned WalletService.disconnected
  ∧ WalletService.isConnected WalletService.disconnected = false
  ∧ storage (WalletService.getCurrentWalletState env w).2 !! "wallet_state" = None.
Proof. repeat split. Qed.

(** An instance of the second half of C10: a stored session, no provider
    in memory, and [createProof] fails with the signing error without a
    single call leaving the program but the console's. *)
Example createProof_with_stale_session :
  let env := sample_env quiet_backend in
  let w := stored_world sample_blob 5000 None in
  ContractService.createProof env
    {| ContractService.proof_text := "T"; ContractService.proof_id := "X";
       ContractService.metadata := None |} w
  = (Raised (ErrorObj "No wallet connected"),
     emit (EvConsoleError "Create proof error:") w).
Proof. reflexivity. Qed.

(** An auto-reconnect that must not reconnect clears the key and answers
    the disconnected state; nothing leaves the program. *)
Lemma autoReconnect_declines (env : Env) (w : World) (s : string)
    (parsed : JsVal) :
  storage w !! "wallet_state" = Some s →
  s ≠ EmptyString →
  JSON_parse env s = Returned parsed →
  nullish parsed = false →
  WalletService.isRecentConnection env (now w) (js_get parsed "connectedAt")
    && negb (strict_eq_str (js_get parsed "providerId") "webwallet") = false →
  WalletService.autoReconnect env w =
    (Returned WalletService.disconnected,
     set_storage (delete "wallet_state" (storage w)) w).
Proof.
  intros Hstored Hs Hparse Hval Hdecline.
  unfold WalletService.autoReconnect, getItem, try_catch, lift, Date_now,
    removeItem, mbind, M_bind, mret, M_ret, WalletService.no_item.
  rewrite Hstored. cbn.
  destruct (String.eqb_spec s EmptyString); [done|].
  rewrite Hparse. cbn. unfold js_get in Hdecline.
  destruct parsed; try discriminate; cbn in *;
    first [done | by rewrite Hdecline].
Qed.

(** C7: for a stored [wallet_state] (a text that is not empty and that
    [JSON.parse] accepts) whose [connectedAt] lies 24 hours or more
    before the clock, or whose [providerId] is "webwallet",
    [autoReconnect] does not reconnect: it returns the disconnected
    state, the key is gone from storage, and neither the in-memory
    provider nor the trace has changed (no backend was initialised or
    logged into). *)
Theorem autoReconnect_expired_or_webwallet
    (env : Env) (w : World) (s : string) (parsed : JsVal) :
  storage w !! "wallet_state" = Some s →
  s ≠ EmptyString →
  JSON_parse env s = Returned parsed →
  (∃ c, js_get parsed "connectedAt" = JNum c ∧ 24 * 60 * 60 * 1000 ≤ now w - c)
  ∨ js_get parsed "providerId" = JStr "webwallet" →
  let run := WalletService.autoReconnect env w in
  run.1 = Returned WalletService.disconnected
  ∧ WalletService.isConnected WalletService.disconnected = false
  ∧ storage run.2 !! "wallet_state" = None
  ∧ currentProvider run.2 = currentProvider w
  ∧ trace run.2 = trace w.
Proof.
  intros Hstored Hs Hparse Hwhy run. subst run.
  assert (nullish parsed = false) as Hval.
  { destruct Hwhy as [(c & Hc & _) | Hp]; by destruct parsed. }
  assert (WalletService.isRecentConnection env (now w) (js_get parsed "connectedAt")
          && negb (strict_eq_str (js_get parsed "providerId") "webwallet") = false)
    as Hdecline.
  { destruct Hwhy as [(c & -> & Hold) | ->]; [|apply andb_false_r].
    unfold WalletService.isRecentConnection. cbn.
    destruct (Z.ltb_spec (now w - c) (24 * 60 * 60 * 1000)); [lia|done]. }
  rewrite (autoReconnect_declines env w s parsed Hstored Hs Hparse Hval Hdecline).
  cbn. repeat split. apply lookup_delete_eq.
Qed.

Lemma autoReconnect_expired_or_webwallet_witness :
  let env := sample_env quiet_backend in
  let old := WalletService.autoReconnect env
               (stored_world sample_blob (1000 + 24 * 60 * 60 * 1000 + 1) None) in
  let web := WalletService.autoReconnect env
               (stored_world webwallet_blob 2000 None) in
  (old.1 = Returned WalletService.disconnected
   ∧ WalletService.isConnected WalletService.disconnected = false
   ∧ storage old.2 !! "wallet_state" = None
   ∧ currentProvider old.2 = None
   ∧ trace old.2 = [])
  ∧ (web.1 = Returned WalletService.disconnected
     ∧ WalletService.isConnected WalletService.disconnected = false
     ∧ storage web.2 !! "wallet_state" = None
     ∧ currentProvider web.2 = None
     ∧ trace web.2 = []).
Proof.
  intros env. split.
  - apply (autoReconnect_expired_or_webwallet env
             (stored_world sample_blob (1000 + 24 * 60 * 60 * 1000 + 1) None)
             sample_blob sample_session).
    + reflexivity.
    + discriminate.
    + reflexivity.
    + left. exists 1000. split; [reflexivity|cbn; lia].
  - apply (autoReconnect_expired_or_webwallet env
             (stored_world webwallet_blob 2000 None)
             webwallet_blob webwallet_session).
    + reflexivity.
    + discriminate.
    + reflexivity.
    + right. reflexivity.
Defined.

(** ** Connecting *)

Lemma message_or_speaks (e : Thrown) (fallback : string) :
  speaks e → fallback ≠ EmptyString → message_or e fallback ≠ EmptyString.
Proof. by destruct e. Qed.

(** The [switch]: a backend of the SDK, or an error that has a message. *)
Lemma select_backend_cases (env : Env) (providerId : JsVal) (w : World) :
  (∃ id w1, WalletService.select_backend env providerId w
              = (Returned (makeBackend env id), w1))
  ∨ (∃ e w1, WalletService.select_backend env providerId w = (Raised e, w1)
             ∧ (well_behaved env → speaks e)).
Proof.
  unfold WalletService.select_backend, WalletService.init_backend, external,
    throw, mbind, M_bind, mret, M_ret.
  repeat match goal with
         | |- context [if ?b then _ else _] => destruct b
         end;
    try (right; eexists _, _; split; [reflexivity|intros _; by cbn]);
    try (left; by eexists _, _);
    match goal with
    | |- context [b_init (makeBackend env ?id)] =>
        pose proof (fun H : well_behaved env => init_outspoken env H id) as Hinit;
        destruct (b_init (makeBackend env id)) as [[]|e];
        [left; by eexists _, _ | right; eexists _, _; split; [reflexivity|exact Hinit]]
    end.
Qed.

(** C4, as the code has it: [connectWallet] never throws; it returns
    either [isConnected = true] with the address the backend's login
    gave and no error, or [isConnected = false] with no address and an
    error message, never both and never neither.  The address and the
    message are not empty provided the backend and the SDK never give an
    empty address and never throw an [Error] without a message. *)
Theorem connectWallet_result_shape
    (env : Env) (providerId : JsVal) (callbackUrl : option string) (w : World) :
  ∃ ws, (WalletService.connectWallet env providerId callbackUrl w).1 = Returned ws
    ∧ ((WalletService.isConnected ws = true
        ∧ WalletService.error ws = None
        ∧ ∃ a, WalletService.address ws = JStr a
               ∧ (well_behaved env → a ≠ EmptyString))
       ∨ (WalletService.isConnected ws = false
          ∧ WalletService.address ws = JUndefined
          ∧ ∃ m, WalletService.error ws = Some m
                 ∧ (well_behaved env → m ≠ EmptyString))).
Proof.
  assert (∀ e, (well_behaved env → speaks e) →
            ∃ ws, Returned (WalletService.failed (message_or e "Connection failed"))
                  = Returned ws
              ∧ ((WalletService.isConnected ws = true
                  ∧ WalletService.error ws = None
                  ∧ ∃ a, WalletService.address ws = JStr a
                         ∧ (well_behaved env → a ≠ EmptyString))
                 ∨ (WalletService.isConnected ws = false
                    ∧ WalletService.address ws = JUndefined
                    ∧ ∃ m, WalletService.error ws = Some m
                           ∧ (well_behaved env → m ≠ EmptyString)))) as Hfail.
  { intros e He. eexists. split; [reflexivity|]. right.
    repeat split. eexists. split; [reflexivity|].
    intros Hwb. by apply message_or_speaks; [apply He|]. }
  unfold WalletService.connectWallet, try_catch, mbind, M_bind.
  destruct (select_backend_cases env providerId w)
    as [(id & w1 & ->) | (e & w1 & -> & He)]; cbn; [|by apply Hfail].
  pose proof (fun H : well_behaved env => login_outspoken env H id) as Hlogin.
  pose proof (fun H : well_behaved env => login_nonempty env H id) as Hne.
  destruct (b_login (makeBackend env id)) as [a|e]; cbn; [|by apply Hfail].
  pose proof (fun H : well_behaved env => address_outspoken env H (JStr a)) as Haddr.
  destruct (newAddress env (JStr a)) as [a'|e]; cbn; [|by apply Hfail].
  pose proof (fun H : well_behaved env => sync_outspoken env H a) as Hsync.
  destruct (accountSync env a) as [bal|e]; cbn; [|by apply Hfail].
  eexists. split; [reflexivity|]. left. cbn. repeat split.
  exists a. split; [done|]. intros Hwb ->. by apply (Hne Hwb).
Qed.

Lemma sample_env_well_behaved : well_behaved (sample_env quiet_backend).
Proof.
  split; cbn; try done.
  intros v. by destruct v.
Qed.

Lemma connectWallet_result_shape_witness :
  ∃ ws, (WalletService.connectWallet (sample_env quiet_backend)
           (JStr "extension") None (world_at 1000)).1 = Returned ws
    ∧ WalletService.isConnected ws = true
    ∧ WalletService.error ws = None
    ∧ ∃ a, WalletService.address ws = JStr a ∧ a ≠ EmptyString.
Proof.
  destruct (connectWallet_result_shape (sample_env quiet_backend)
              (JStr "extension") None (world_at 1000))
    as (ws & Hrun & [(Hon & Herr & a & Ha & Hne) | (Hoff & _)]).
  - exists ws. repeat split; try assumption.
    exists a. split; [assumption|]. apply Hne, sample_env_well_behaved.
  - exfalso. cbn in Hrun. injection Hrun as <-. discriminate Hoff.
Defined.

(** C4 as stated fails when the backend throws an [Error] without a
    message: the result is [isConnected = false] and its error message
    is the empty string. *)
Lemma connectWallet_empty_error_message :
  let run := WalletService.connectWallet (sample_env mute_backend)
               (JStr "extension") None (initial_world (always_reports "pending")) in
  b_init (makeBackend (sample_env mute_backend) "extension")
    = Raised (ErrorObj EmptyString)
  ∧ run.1 = Returned (WalletService.failed EmptyString)
  ∧ WalletService.isConnected (WalletService.failed EmptyString) = false
  ∧ WalletService.error (WalletService.failed EmptyString) = Some EmptyString.
Proof. repeat split. Qed.

(** A connection that succeeds: the session is persisted and the backend
    is kept in memory. *)
Example connectWallet_extension :
  let run := WalletService.connectWallet (sample_env quiet_backend)
               (JStr "extension") None (world_at 1000) in
  (WalletService.isConnected <$> match run.1 with
                                  | Returned ws => Some ws
                                  | Raised _ => None
                                  end) = Some true
  ∧ storage run.2 !! "wallet_state" = Some sample_blob
  ∧ (b_id <$> currentProvider run.2) = Some "extension"
  ∧ trace run.2 = [EvAccountSync sample_address; EvProviderLogin "extension";
                   EvProviderInit "extension"].
Proof. repeat split. Qed.

(** ** Reading from the contract *)

Section Reads.

Context (env : Env).

(** A read whose handler logs and answers a default never throws. *)
Lemma swallowed_returns {A} (body : M A) (label : string) (default : A) (w : World) :
  ∃ a, (try_catch body (fun _ => _ ← console_error label; mret default) w).1
       = Returned a.
Proof.
  unfold try_catch. destruct (body w) as [[a|e] w1]; cbn; by eexists.
Qed.

(** ... and answers the default when its body throws or returns it. *)
Lemma swallowed_default {A} (body : M A) (label : string) (default : A) (w : World) :
  (∀ a, (body w).1 = Returned a → a = default) →
  (try_catch body (fun _ => _ ← console_error label; mret default) w).1
    = Returned default.
Proof.
  intros Hbody. unfold try_catch.
  destruct (body w) as [[a|e] w1]; cbn in *; [|done].
  by rewrite (Hbody a).
Qed.

(** A read whose handler logs and rethrows passes on what its body
    threw. *)
Lemma rethrown {A} (body : M A) (label : string) (e : Thrown) (w : World) :
  (body w).1 = Raised e →
  (try_catch body (fun error => _ ← console_error label; throw error) w).1
    = Raised e.
Proof.
  intros Hbody. unfold try_catch, console_error, throw, mbind, M_bind.
  destruct (body w) as [[a|e'] w1]; cbn in *; congruence.
Qed.

End Reads.

(** The steps shared by the bodies of the reads, unfolded. *)
Ltac unfold_read :=
  unfold lift, external, mbind, M_bind, mret, M_ret; cbn.

(** After the query is sent: under [read_fails] the body can only throw
    or take the no-data exit. *)
Ltac failing_query Hfail :=
  match goal with
  | |- context [queryContract ?env ?q] =>
      let Hq := fresh "Hq" in
      pose proof (Hfail q) as Hq;
      destruct (queryContract env q) as [response|?]; cbn in *; [|done];
      destruct Hq as [Hq | [? Hq]]; rewrite Hq;
      [|destruct (ContractService.no_returnData response)]; cbn;
      intros; congruence
  end.

(** C2, as the code has it.  The reads of the first service never throw,
    whatever the inputs, the SDK and the provider do; when every query
    fails (the provider throws, the response has no data, or the parser
    throws) [getProof] answers null, [getUserProofs] the empty list,
    [proofExists] false, [getUserProofCount] and [getTotalProofs] 0.
    The reads of the modern service log and rethrow: when the SDK builds
    the query and the provider throws [e], each of them throws [e]. *)
Theorem reads_swallow_or_rethrow
    (env : Env) (userAddress proofId : string) (w : World) :
  ((∃ r, (ContractService.getProof env userAddress proofId w).1 = Returned r)
   ∧ (∃ r, (ContractService.getUserProofs env userAddress w).1 = Returned r)
   ∧ (∃ r, (ContractService.proofExists env proofId w).1 = Returned r)
   ∧ (∃ r, (ContractService.getUserProofCount env userAddress w).1 = Returned r)
   ∧ (∃ r, (ContractService.getTotalProofs env w).1 = Returned r))
  ∧ (read_fails env →
       (ContractService.getProof env userAddress proofId w).1 = Returned None
       ∧ (ContractService.getUserProofs env userAddress w).1 = Returned []
       ∧ (ContractService.proofExists env proofId w).1 = Returned (JBool false)
       ∧ (ContractService.getUserProofCount env userAddress w).1 = Returned (JNum 0)
       ∧ (ContractService.getTotalProofs env w).1 = Returned (JNum 0))
  ∧ (∀ e, sdk_builds env → provider_down env e →
       (ModernContractService.getProof env userAddress proofId w).1 = Raised e
       ∧ (ModernContractService.getUserProofs env userAddress w).1 = Raised e
       ∧ (ModernContractService.proofExists env proofId w).1 = Raised e
       ∧ (ModernContractService.getUserProofCount env userAddress w).1 = Raised e
       ∧ (ModernContractService.getTotalProofs env w).1 = Raised e).
Proof.
  split; [|split].
  - repeat split; apply swallowed_returns.
  - intros Hfail. repeat split; apply swallowed_default; intros a; unfold_read.
    + destruct (newAddress env (JStr userAddress)) as [user|?]; cbn; [|done].
      destruct (createQuery env _) as [query|?]; cbn; [|done].
      failing_query Hfail.
    + destruct (newAddress env (JStr userAddress)) as [user|?]; cbn; [|done].
      destruct (createQuery env _) as [query|?]; cbn; [|done].
      failing_query Hfail.
    + destruct (createQuery env _) as [query|?]; cbn; [|done].
      failing_query Hfail.
    + destruct (newAddress env (JStr userAddress)) as [user|?]; cbn; [|done].
      destruct (createQuery env _) as [query|?]; cbn; [|done].
      failing_query Hfail.
    + destruct (createQuery env _) as [query|?]; cbn; [|done].
      failing_query Hfail.
  - intros e [Haddr Hbuild] Hdown.
    destruct (Haddr userAddress) as [user Huser].
    repeat split; apply rethrown; unfold_read; rewrite ?Huser; cbn;
      match goal with
      | |- context [buildQuery env ?q] =>
          destruct (Hbuild q) as [query ->]; cbn; by rewrite Hdown
      end.
Qed.

Lemma reads_swallow_or_rethrow_witness :
  let env := sample_env quiet_backend in
  let w := world_at 0 in
  ((ContractService.getProof env sample_address "X" w).1 = Returned None
   ∧ (ContractService.getUserProofs env sample_address w).1 = Returned []
   ∧ (ContractService.proofExists env "X" w).1 = Returned (JBool false)
   ∧ (ContractService.getUserProofCount env sample_address w).1 = Returned (JNum 0)
   ∧ (ContractService.getTotalProofs env w).1 = Returned (JNum 0))
  ∧ ((ModernContractService.getProof env sample_address "X" w).1
       = Raised (ErrorObj "Network Error")
     ∧ (ModernContractService.getUserProofs env sample_address w).1
       = Raised (ErrorObj "Network Error")
     ∧ (ModernContractService.proofExists env "X" w).1
       = Raised (ErrorObj "Network Error")
     ∧ (ModernContractService.getUserProofCount env sample_address w).1
       = Raised (ErrorObj "Network Error")
     ∧ (ModernContractService.getTotalProofs env w).1
       = Raised (ErrorObj "Network Error")).
Proof.
  intros env w.
  destruct (reads_swallow_or_rethrow env sample_address "X" w)
    as (_ & Hdefault & Hrethrow).
  split.
  - apply Hdefault. intros q. exact I.
  - apply Hrethrow.
    + split; [intros s|intros q]; eexists; reflexivity.
    + intros q. reflexivity.
Defined.

(** C2 as stated fails on the modern service: with a provider that
    throws, its [getProof] throws what the provider threw. *)
Lemma modern_getProof_rethrows :
  let env := sample_env quiet_backend in
  queryContract env
    {| q_func := "getProof";
       q_args := [AddressValue sample_address; BytesValue "X"] |}
    = Raised (ErrorObj "Network Error")
  ∧ (ModernContractService.getProof env sample_address "X" (world_at 0)).1
    = Raised (ErrorObj "Network Error").
Proof. split; reflexivity. Qed.

(** ** More on waiting for a transaction *)

Section WaitForTransactionOutcomes.

Import ContractService.

Variable txHash : string.
Variable maxRetries : Z.

#[local] Abbreviation idle := (ContractService.idle_step txHash).

Lemma failure_is_not_success (s : string) :
  is_failure s = true → is_success s = false.
Proof.
  unfold is_failure, is_success. intros H.
  apply orb_true_iff in H as [H|H]; apply String.eqb_eq in H; by subst.
Qed.

(** The body hands a status back to the caller only when it is a
    success status. *)
Lemma body_returns_success i w st :
  (waitForTransaction_body txHash maxRetries i w).1 = Returned (Return st) →
  is_success (status st) = true.
Proof.
  unfold waitForTransaction_body, try_catch, getTransactionStatus, sleep, throw,
    mbind, M_bind, mret, M_ret.
  destruct (statusFeed w 0%nat txHash) as [st'|e]; cbn.
  - destruct (is_success (status st')) eqn:Hs; cbn.
    { by intros [= <-]. }
    destruct (is_failure (status st')); cbn; [|done].
    destruct (i =? maxRetries - 1); cbn; done.
  - destruct (i =? maxRetries - 1); cbn; done.
Qed.

Lemma loop_returns_success remaining : ∀ i w st,
  (waitForTransaction_loop txHash maxRetries remaining i w).1 = Returned st →
  is_success (status st) = true.
Proof.
  induction remaining as [|r IH]; intros i w st; cbn; [done|].
  unfold mbind, M_bind.
  pose proof (body_returns_success i w) as Hbody.
  destruct (waitForTransaction_body txHash maxRetries i w) as [[[st'|]|e] w1];
    cbn in *.
  - intros [= <-]. by apply Hbody.
  - apply IH.
  - done.
Qed.

(** Turns that are not the last one and whose poll is not a success are
    idle turns, whatever else the poll did. *)
Lemma loop_skips k : ∀ remaining i w,
  (k ≤ remaining)%nat →
  i + Z.of_nat k ≤ maxRetries - 1 →
  (∀ j, (j < k)%nat → reports_success (statusFeed w j txHash) = false) →
  waitForTransaction_loop txHash maxRetries remaining i w =
    waitForTransaction_loop txHash maxRetries (remaining - k) (i + Z.of_nat k)
      (Nat.iter k idle w).
Proof.
  induction k as [|k IH]; intros remaining i w Hk Hi Hbefore.
  - cbn. by rewrite Nat.sub_0_r, Z.add_0_r.
  - destruct remaining as [|r]; [lia|].
    cbn [waitForTransaction_loop]. unfold mbind, M_bind.
    rewrite body_continues; [|lia|apply Hbefore; lia].
    rewrite (IH r (i + 1) (ContractService.idle_step txHash w)); [|lia|lia|].
    + rewrite <- Nat.iter_succ_r. f_equal. lia.
    + intros j Hj. cbn. apply Hbefore. lia.
Qed.

(** The last turn on a poll that throws: the handler rethrows it. *)
Lemma body_last_turn_throws w e :
  statusFeed w 0%nat txHash = Raised e →
  waitForTransaction_body txHash maxRetries (maxRetries - 1) w =
    (Raised e, next_status (emit (EvGetTransactionStatus txHash) w)).
Proof.
  intros Hfeed.
  unfold waitForTransaction_body, try_catch, getTransactionStatus, mbind, M_bind.
  rewrite Hfeed. cbn. by rewrite Z.eqb_refl.
Qed.

(** The last turn on a failure status. *)
Lemma body_last_turn_failure w st :
  statusFeed w 0%nat txHash = Returned st →
  is_failure (status st) = true →
  waitForTransaction_body txHash maxRetries (maxRetries - 1) w =
    (Raised (ErrorObj ("Transaction failed: " +:+ status st)),
     next_status (emit (EvGetTransactionStatus txHash) w)).
Proof.
  intros Hfeed Hf.
  unfold waitForTransaction_body, try_catch, getTransactionStatus, mbind, M_bind.
  rewrite Hfeed. cbn. rewrite (failure_is_not_success _ Hf), Hf. cbn.
  by rewrite Z.eqb_refl.
Qed.

(** Reaching the last turn. *)
Lemma loop_reaches_last_turn w :
  1 ≤ maxRetries →
  (∀ j, Z.of_nat j < maxRetries - 1 →
        reports_success (statusFeed w j txHash) = false) →
  waitForTransaction txHash maxRetries w =
    waitForTransaction_loop txHash maxRetries 1 (maxRetries - 1)
      (Nat.iter (Z.to_nat (maxRetries - 1)) idle w).
Proof.
  intros Hmax Hbefore. unfold waitForTransaction.
  rewrite (loop_skips (Z.to_nat (maxRetries - 1))); [|lia|lia|].
  - f_equal; lia.
  - intros j Hj. apply Hbefore. lia.
Qed.

End WaitForTransactionOutcomes.

(** X1: whatever the network answers, a status that [waitForTransaction]
    returns is a success status ("executed" or "success"). *)
Theorem waitForTransaction_returns_only_success
    (txHash : string) (maxRetries : Z) (w : World) (st : TransactionStatus) :
  (ContractService.waitForTransaction txHash maxRetries w).1 = Returned st →
  status st = "executed" ∨ status st = "success".
Proof.
  intros Hrun. apply loop_returns_success in Hrun.
  unfold ContractService.is_success in Hrun.
  apply orb_true_iff in Hrun as [H|H]; apply String.eqb_eq in H; auto.
Qed.

Lemma waitForTransaction_returns_only_success_witness :
  status {| status := "executed" |} = "executed"
  ∨ status {| status := "executed" |} = "success".
Proof.
  apply (waitForTransaction_returns_only_success "tx" 10
           (initial_world (reports_then "pending" "executed"))).
  reflexivity.
Defined.

(** X2: with [maxRetries] zero or negative the loop body never runs:
    the call throws the timeout error at once, without a poll or a
    timer, and leaves the world as it was. *)
Theorem waitForTransaction_no_retries
    (txHash : string) (maxRetries : Z) (w : World) :
  maxRetries ≤ 0 →
  ContractService.waitForTransaction txHash maxRetries w
    = (Raised (ErrorObj "Transaction timeout"), w).
Proof.
  intros Hmax. unfold ContractService.waitForTransaction.
  replace (Z.to_nat maxRetries) with 0%nat by lia. reflexivity.
Qed.

Lemma waitForTransaction_no_retries_witness :
  ContractService.waitForTransaction "tx" 0 (initial_world (always_reports "success"))
    = (Raised (ErrorObj "Transaction timeout"),
       initial_world (always_reports "success")).
Proof.
  apply (waitForTransaction_no_retries "tx" 0
           (initial_world (always_reports "success"))).
  lia.
Defined.

(** X3: when no poll before the last turn reports a success and the poll
    of the last turn throws (the network is down), the call throws that
    very error, not the timeout error, after [maxRetries] polls and
    [maxRetries - 1] timers. *)
Theorem waitForTransaction_last_poll_throws
    (txHash : string) (maxRetries : Z) (w : World) (e : Thrown) :
  1 ≤ maxRetries →
  (∀ j, Z.of_nat j < maxRetries - 1 →
        ContractService.reports_success (statusFeed w j txHash) = false) →
  statusFeed w (Z.to_nat (maxRetries - 1)) txHash = Raised e →
  let run := ContractService.waitForTransaction txHash maxRetries w in
  run.1 = Raised e
  ∧ trace run.2 = EvGetTransactionStatus txHash
                    :: ContractService.idle_trace txHash (Z.to_nat (maxRetries - 1))
                    ++ trace w.
Proof.
  intros Hmax Hbefore Hlast run. subst run.
  rewrite loop_reaches_last_turn by done.
  cbn [ContractService.waitForTransaction_loop]. unfold mbind, M_bind.
  rewrite (body_last_turn_throws txHash maxRetries _ e).
  - cbn. by rewrite trace_idle_steps.
  - rewrite statusFeed_idle_steps, <- Hlast. f_equal. lia.
Qed.

(** A network that throws on every status poll. *)
Lemma waitForTransaction_last_poll_throws_witness :
  let down : nat → string → Res TransactionStatus :=
    fun _ _ => Raised (ErrorObj "Network Error") in
  let run := ContractService.waitForTransaction "tx" 3 (initial_world down) in
  run.1 = Raised (ErrorObj "Network Error")
  ∧ trace run.2 = EvGetTransactionStatus "tx"
                    :: ContractService.idle_trace "tx" (Z.to_nat (3 - 1)) ++ [].
Proof.
  intros down.
  apply (waitForTransaction_last_poll_throws "tx" 3 (initial_world down)
           (ErrorObj "Network Error")).
  - lia.
  - intros j _. reflexivity.
  - reflexivity.
Defined.

(** X4: when no poll before the last turn reports a success and the poll
    of the last turn reports "failed" or "invalid", the call throws
    [Error("Transaction failed: <status>")] on that poll. *)
Theorem waitForTransaction_last_poll_failed
    (txHash : string) (maxRetries : Z) (w : World) (st : TransactionStatus) :
  1 ≤ maxRetries →
  (∀ j, Z.of_nat j < maxRetries - 1 →
        ContractService.reports_success (statusFeed w j txHash) = false) →
  statusFeed w (Z.to_nat (maxRetries - 1)) txHash = Returned st →
  ContractService.is_failure (status st) = true →
  let run := ContractService.waitForTransaction txHash maxRetries w in
  run.1 = Raised (ErrorObj ("Transaction failed: " +:+ status st))
  ∧ trace run.2 = EvGetTransactionStatus txHash
                    :: ContractService.idle_trace txHash (Z.to_nat (maxRetries - 1))
                    ++ trace w.
Proof.
  intros Hmax Hbefore Hlast Hf run. subst run.
  rewrite loop_reaches_last_turn by done.
  cbn [ContractService.waitForTransaction_loop]. unfold mbind, M_bind.
  rewrite (body_last_turn_failure txHash maxRetries _ st).
  - cbn. by rewrite trace_idle_steps.
  - rewrite statusFeed_idle_steps, <- Hlast. f_equal. lia.
  - done.
Qed.

Lemma waitForTransaction_last_poll_failed_witness :
  let run := ContractService.waitForTransaction "tx" 2
               (initial_world (reports_then "pending" "invalid")) in
  run.1 = Raised (ErrorObj ("Transaction failed: " +:+ "invalid"))
  ∧ trace run.2 = EvGetTransactionStatus "tx"
                    :: ContractService.idle_trace "tx" (Z.to_nat (2 - 1)) ++ [].
Proof.
  apply (waitForTransaction_last_poll_failed "tx" 2
           (initial_world (reports_then "pending" "invalid"))
           {| status := "invalid" |}).
  - lia.
  - intros j Hj. assert (j = 0%nat) as -> by lia. reflexivity.
  - reflexivity.
  - reflexivity.
Defined.

(** ** Signing and broadcasting *)

(** X5: [signAndSendTransaction] never broadcasts what was not signed: a
    broadcast of [t] that was not in the trace before the call is the
    broadcast of the given transaction, made with a backend in memory
    whose [signTransaction] accepted it. *)
Theorem signAndSendTransaction_sends_only_signed
    (env : Env) (transaction t : Transaction) (w : World) :
  let run := WalletService.signAndSendTransaction env transaction w in
  EvSendTransaction t ∈ trace run.2 →
  EvSendTransaction t ∈ trace w
  ∨ (t = transaction
     ∧ ∃ p, currentProvider w = Some p
            ∧ b_signTransaction p transaction = Returned tt).
Proof.
  unfold WalletService.signAndSendTransaction, WalletService.getCurrentProvider,
    try_catch, external, console_error, throw, mbind, M_bind, mret, M_ret.
  destruct (currentProvider w) as [p|] eqn:Hp; cbn; [|by left].
  destruct (b_signTransaction p transaction) as [[]|e] eqn:Hsign; cbn.
  - assert (EvSendTransaction t = EvSendTransaction transaction →
            EvSendTransaction t ∈ trace w
            ∨ t = transaction
              ∧ ∃ p0, Some p = Some p0
                      ∧ b_signTransaction p0 transaction = Returned ())
      as Hsent.
    { intros [= ->]. right. split; [done|]. by exists p. }
    destruct (sendTransaction env transaction) as [h|e]; cbn;
      rewrite !elem_of_cons.
    + intros [Hin|[Hin|Hin]]; [by apply Hsent|discriminate|by left].
    + intros [Hin|[Hin|[Hin|Hin]]]; [discriminate|by apply Hsent|discriminate|by left].
  - rewrite !elem_of_cons. intros [Hin|[Hin|Hin]]; try discriminate. by left.
Qed.

Lemma signAndSendTransaction_sends_only_signed_witness :
  let transaction := {| tx_func := "certify_action"; tx_args := [];
                        tx_gasLimit := 20000000; tx_caller := sample_address |} in
  EvSendTransaction transaction ∈ []
  ∨ (transaction = transaction
     ∧ ∃ p, Some (quiet_backend "extension") = Some p
            ∧ b_signTransaction p transaction = Returned tt).
Proof.
  intros transaction.
  apply (signAndSendTransaction_sends_only_signed (sample_env quiet_backend)
           transaction transaction
           (stored_world sample_blob 5000 (Some (quiet_backend "extension")))).
  cbn. constructor.
Defined.

(** When the backend's [signTransaction] throws, nothing is
    broadcast: the call throws an [Error] carrying the original message
    (or "Transaction failed" for a thrown non-Error), and the only calls
    that left the program are the signing attempt and the console log. *)
Theorem signAndSendTransaction_signing_fails
    (env : Env) (transaction : Transaction) (w : World) (p : Backend) (e : Thrown) :
  currentProvider w = Some p →
  b_signTransaction p transaction = Raised e →
  WalletService.signAndSendTransaction env transaction w =
    (Raised (ErrorObj (message_or e "Transaction failed")),
     emit (EvConsoleError "Transaction error:")
       (emit (EvSignTransaction transaction) w)).
Proof.
  intros Hp Hsign.
  unfold WalletService.signAndSendTransaction, WalletService.getCurrentProvider,
    try_catch, external, console_error, throw, mbind, M_bind, mret, M_ret.
  rewrite Hp. cbn. by rewrite Hsign.
Qed.

(** A backend that refuses to sign. *)
Lemma signAndSendTransaction_signing_fails_witness :
  let refusing :=
    {| b_id := "ledger"; b_init := Returned tt; b_login := Returned sample_address;
       b_signTransaction := fun _ => Raised (NonError (JStr "denied"));
       b_logout := None |} in
  let transaction := {| tx_func := "update_proof"; tx_args := [];
                        tx_gasLimit := 15000000; tx_caller := sample_address |} in
  let w := stored_world sample_blob 5000 (Some refusing) in
  WalletService.signAndSendTransaction (sample_env quiet_backend) transaction w =
    (Raised (ErrorObj (message_or (NonError (JStr "denied")) "Transaction failed")),
     emit (EvConsoleError "Transaction error:")
       (emit (EvSignTransaction transaction) w)).
Proof.
  intros refusing transaction w.
  apply (signAndSendTransaction_signing_fails (sample_env quiet_backend)
           transaction w refusing (NonError (JStr "denied"))); reflexivity.
Defined.

(** ** Stored sessions that cannot be read *)

(** X6: a stored [wallet_state] that [JSON.parse] rejects is reported as
    the disconnected state and removed from storage, with nothing else
    changed; the next call finds nothing stored and changes nothing. *)
Theorem getCurrentWalletState_clears_corrupt_storage
    (env : Env) (w : World) (s : string) (e : Thrown) :
  storage w !! "wallet_state" = Some s →
  s ≠ EmptyString →
  JSON_parse env s = Raised e →
  let cleared := set_storage (delete "wallet_state" (storage w)) w in
  WalletService.getCurrentWalletState env w
    = (Returned WalletService.disconnected, cleared)
  ∧ storage cleared !! "wallet_state" = None
  ∧ WalletService.getCurrentWalletState env cleared
    = (Returned WalletService.disconnected, cleared).
Proof.
  intros Hstored Hs Hparse cleared. subst cleared.
  unfold WalletService.getCurrentWalletState, getItem, try_catch, lift, removeItem,
    mbind, M_bind, mret, M_ret, WalletService.no_item.
  cbn. rewrite Hstored, lookup_delete_eq. cbn.
  destruct (String.eqb_spec s EmptyString); [done|].
  by rewrite Hparse.
Qed.

Lemma getCurrentWalletState_clears_corrupt_storage_witness :
  let env := sample_env quiet_backend in
  let w := stored_world "{broken" 5000 None in
  let cleared := set_storage (delete "wallet_state" (storage w)) w in
  WalletService.getCurrentWalletState env w
    = (Returned WalletService.disconnected, cleared)
  ∧ storage cleared !! "wallet_state" = None
  ∧ WalletService.getCurrentWalletState env cleared
    = (Returned WalletService.disconnected, cleared).
Proof.
  intros env w.
  apply (getCurrentWalletState_clears_corrupt_storage env w "{broken"
           (ErrorObj "SyntaxError")).
  - reflexivity.
  - discriminate.
  - reflexivity.
Defined.

(** X7: [autoReconnect] on a stored [wallet_state] that [JSON.parse]
    rejects, or that parses to [null], answers [isConnected = false]
    with the error "Auto-reconnect failed", removes the key, and reaches
    no backend: the console log is the only call that leaves the
    program and the in-memory provider is unchanged. *)
Theorem autoReconnect_corrupt_storage
    (env : Env) (w : World) (s : string) :
  storage w !! "wallet_state" = Some s →
  s ≠ EmptyString →
  (∃ e, JSON_parse env s = Raised e) ∨ JSON_parse env s = Returned JNull →
  WalletService.autoReconnect env w =
    (Returned (WalletService.failed "Auto-reconnect failed"),
     set_storage (delete "wallet_state" (storage w))
       (emit (EvConsoleError "Auto-reconnect failed:") w)).
Proof.
  intros Hstored Hs Hbad.
  unfold WalletService.autoReconnect, getItem, try_catch, lift, removeItem,
    console_error, mbind, M_bind, mret, M_ret, WalletService.no_item.
  rewrite Hstored. cbn.
  destruct (String.eqb_spec s EmptyString); [done|].
  by destruct Hbad as [[e ->] | ->].
Qed.

Lemma autoReconnect_corrupt_storage_witness :
  let env := sample_env quiet_backend in
  let w := stored_world "null" 5000 None in
  WalletService.autoReconnect env w =
    (Returned (WalletService.failed "Auto-reconnect failed"),
     set_storage (delete "wallet_state" (storage w))
       (emit (EvConsoleError "Auto-reconnect failed:") w)).
Proof.
  intros env w.
  apply (autoReconnect_corrupt_storage env w "null").
  - reflexivity.
  - discriminate.
  - right. reflexivity.
Defined.

(** ** What connecting leaves behind *)

(** Choosing the backend touches neither storage nor the clock nor the
    in-memory provider. *)
Lemma select_backend_frame (env : Env) (providerId : JsVal) (w : World) :
  let run := WalletService.select_backend env providerId w in
  storage run.2 = storage w ∧ now run.2 = now w
  ∧ currentProvider run.2 = currentProvider w.
Proof.
  unfold WalletService.select_backend, WalletService.init_backend, external,
    throw, mbind, M_bind, mret, M_ret.
  repeat match goal with
         | |- context [if ?b then _ else _] => destruct b
         end; cbn; try done;
    match goal with
    | |- context [b_init ?b] => by destruct (b_init b)
    end.
Qed.

(** A connection that reports success has logged in, synced the
    account, kept the backend in memory and persisted the session. *)
Lemma connectWallet_connected_inv (env : Env) (providerId : JsVal)
    (callbackUrl : option string) (w : World) (ws : WalletService.WalletState) :
  (WalletService.connectWallet env providerId callbackUrl w).1 = Returned ws →
  WalletService.isConnected ws = true →
  ∃ b a bal,
    (WalletService.select_backend env providerId w).1 = Returned b
    ∧ b_login b = Returned a
    ∧ accountSync env a = Returned bal
    ∧ ws = {| WalletService.isConnected := true;
              WalletService.address := JStr a;
              WalletService.balance := Some bal;
              WalletService.provider := WalletService.find_provider env providerId;
              WalletService.isLoading := false;
              WalletService.error := None |}
    ∧ storage (WalletService.connectWallet env providerId callbackUrl w).2
        = <["wallet_state" := session_text env providerId a (now w)]> (storage w)
    ∧ currentProvider (WalletService.connectWallet env providerId callbackUrl w).2
        = Some b.
Proof.
  pose proof (select_backend_frame env providerId w) as (Hst & Hnow & _).
  unfold WalletService.connectWallet, try_catch, external, lift, Date_now, setItem,
    console_error, mbind, M_bind, mret, M_ret.
  destruct (WalletService.select_backend env providerId w) as [[b|e] w1];
    cbn in *; [|intros [= <-]; cbn; discriminate].
  destruct (b_login b) as [a|e] eqn:Hlogin; cbn;
    [|intros [= <-]; cbn; discriminate].
  destruct (newAddress env (JStr a)) as [a'|e]; cbn;
    [|intros [= <-]; cbn; discriminate].
  destruct (accountSync env a) as [bal|e] eqn:Hsync; cbn;
    [|intros [= <-]; cbn; discriminate].
  intros [= <-] _. exists b, a, bal.
  unfold session_text. rewrite Hst, Hnow. by repeat split.
Qed.

(** X8: a connection that reports [isConnected = true] has persisted
    [{providerId, address, connectedAt: Date.now()}] under
    [wallet_state] and keeps a backend in memory.  When [JSON.parse]
    reads that text back, [getCurrentWalletState] answers the same
    session: connected, with the same address and the same provider
    entry. *)
Theorem connectWallet_then_getCurrentWalletState
    (env : Env) (providerId : JsVal) (callbackUrl : option string) (w : World)
    (ws : WalletService.WalletState) (a : string) :
  (WalletService.connectWallet env providerId callbackUrl w).1 = Returned ws →
  WalletService.isConnected ws = true →
  WalletService.address ws = JStr a →
  session_text env providerId a (now w) ≠ EmptyString →
  JSON_parse env (session_text env providerId a (now w))
    = Returned (JObj [("providerId", providerId); ("address", JStr a);
                      ("connectedAt", JNum (now w))]) →
  let connected := (WalletService.connectWallet env providerId callbackUrl w).2 in
  storage connected !! "wallet_state"
    = Some (session_text env providerId a (now w))
  ∧ is_Some (currentProvider connected)
  ∧ ∃ back, (WalletService.getCurrentWalletState env connected).1 = Returned back
      ∧ WalletService.isConnected back = true
      ∧ WalletService.address back = WalletService.address ws
      ∧ WalletService.provider back = WalletService.provider ws.
Proof.
  intros Hrun Hon Haddr Htext Hparse connected. subst connected.
  destruct (connectWallet_connected_inv env providerId callbackUrl w ws Hrun Hon)
    as (b & a' & bal & _ & _ & _ & -> & Hstore & Hprov).
  cbn in Haddr. injection Haddr as ->.
  assert (storage (WalletService.connectWallet env providerId callbackUrl w).2
            !! "wallet_state" = Some (session_text env providerId a (now w)))
    as Hlook by (rewrite Hstore; apply lookup_insert_eq).
  split; [done|]. split; [by rewrite Hprov|].
  rewrite (getCurrentWalletState_parsed env _ _ _ Hlook Htext Hparse eq_refl).
  eexists. split; [reflexivity|]. by cbn.
Qed.

Lemma connectWallet_then_getCurrentWalletState_witness :
  let env := sample_env quiet_backend in
  let connected :=
    (WalletService.connectWallet env (JStr "extension") None (world_at 1000)).2 in
  storage connected !! "wallet_state"
    = Some (session_text env (JStr "extension") sample_address 1000)
  ∧ is_Some (currentProvider connected)
  ∧ ∃ back, (WalletService.getCurrentWalletState env connected).1 = Returned back
      ∧ WalletService.isConnected back = true
      ∧ WalletService.address back = JStr sample_address
      ∧ WalletService.provider back
        = WalletService.find_provider env (JStr "extension").
Proof.
  intros env.
  apply (connectWallet_then_getCurrentWalletState env (JStr "extension") None
           (world_at 1000)
           {| WalletService.isConnected := true;
              WalletService.address := JStr sample_address;
              WalletService.balance := Some "0";
              WalletService.provider :=
                WalletService.find_provider env (JStr "extension");
              WalletService.isLoading := false;
              WalletService.error := None |} sample_address).
  - reflexivity.
  - reflexivity.
  - reflexivity.
  - discriminate.
  - reflexivity.
Defined.

Lemma connectWallet_failure_keeps_storage_aux
    (env : Env) (providerId : JsVal) (callbackUrl : option string) (w : World)
    (ws : WalletService.WalletState) :
  (WalletService.connectWallet env providerId callbackUrl w).1 = Returned ws →
  WalletService.isConnected ws = false →
  storage (WalletService.connectWallet env providerId callbackUrl w).2 = storage w.
Proof.
  pose proof (select_backend_frame env providerId w) as (Hst & _ & _).
  unfold WalletService.connectWallet, try_catch, external, lift, Date_now, setItem,
    console_error, mbind, M_bind, mret, M_ret.
  destruct (WalletService.select_backend env providerId w) as [[b|e] w1];
    cbn in *; [|done].
  destruct (b_login b) as [a|e]; cbn; [|done].
  destruct (newAddress env (JStr a)) as [a'|e]; cbn; [|done].
  destruct (accountSync env a) as [bal|e]; cbn; [|done].
  by intros [= <-].
Qed.

(** X9: a connection that reports [isConnected = false] has written
    nothing: storage is what it was before the call. *)
Theorem connectWallet_failure_keeps_storage
    (env : Env) (providerId : JsVal) (callbackUrl : option string) (w : World)
    (ws : WalletService.WalletState) :
  (WalletService.connectWallet env providerId callbackUrl w).1 = Returned ws →
  WalletService.isConnected ws = false →
  storage (WalletService.connectWallet env providerId callbackUrl w).2 = storage w.
Proof. apply connectWallet_failure_keeps_storage_aux. Qed.

Lemma connectWallet_failure_keeps_storage_witness :
  storage (WalletService.connectWallet (sample_env closing_backend)
             (JStr "walletconnect") None (stored_world "{broken" 5000 None)).2
  = storage (stored_world "{broken" 5000 None).
Proof.
  apply (connectWallet_failure_keeps_storage (sample_env closing_backend)
           (JStr "walletconnect") None (stored_world "{broken" 5000 None)
           (WalletService.failed "Login cancelled")); reflexivity.
Defined.

(** X10: a provider id that is not in [getAvailableProviders] is not
    supported by [connectWallet] either: the answer is
    [isConnected = false] with "Unknown provider: <id>", no backend is
    made or called, and only the console log leaves the program. *)
Theorem connectWallet_unlisted_provider
    (env : Env) (providerId : JsVal) (callbackUrl : option string) (w : World) :
  WalletService.find_provider env providerId = None →
  WalletService.connectWallet env providerId callbackUrl w =
    (Returned (WalletService.failed
                 ("Unknown provider: " +:+ WalletService.template env providerId)),
     emit (EvConsoleError "Wallet connection error:") w).
Proof.
  unfold WalletService.find_provider, WalletService.getAvailableProviders.
  cbn [List.find WalletService.wp_id].
  unfold WalletService.connectWallet, WalletService.select_backend, try_catch,
    throw, console_error, mbind, M_bind, mret, M_ret.
  destruct (strict_eq_str providerId "extension"); [done|].
  destruct (strict_eq_str providerId "webwallet"); [done|].
  destruct (strict_eq_str providerId "walletconnect"); [done|].
  destruct (strict_eq_str providerId "ledger"); [done|].
  reflexivity.
Qed.

Lemma connectWallet_unlisted_provider_witness :
  WalletService.connectWallet (sample_env quiet_backend) (JStr "metamask") None
    (world_at 0) =
    (Returned (WalletService.failed
                 ("Unknown provider: "
                  +:+ WalletService.template (sample_env quiet_backend)
                        (JStr "metamask"))),
     emit (EvConsoleError "Wallet connection error:") (world_at 0)).
Proof.
  apply (connectWallet_unlisted_provider (sample_env quiet_backend)
           (JStr "metamask") None (world_at 0)).
  reflexivity.
Defined.

(** X11: a provider that [getAvailableProviders] lists as not installed
    (the extension without [window.elrondWallet], the Ledger without
    WebUSB) cannot be connected: [connectWallet] answers
    [isConnected = false] with the matching message, and no backend is
    made or called. *)
Theorem connectWallet_not_installed
    (env : Env) (providerId : JsVal) (callbackUrl : option string) (w : World)
    (p : WalletService.WalletProvider) :
  WalletService.find_provider env providerId = Some p →
  WalletService.wp_isInstalled p = false →
  ∃ msg, (msg = "MultiversX Extension not installed"
          ∨ msg = "Ledger not supported in this browser")
    ∧ WalletService.connectWallet env providerId callbackUrl w =
        (Returned (WalletService.failed msg),
         emit (EvConsoleError "Wallet connection error:") w).
Proof.
  unfold WalletService.find_provider, WalletService.getAvailableProviders.
  cbn [List.find WalletService.wp_id].
  unfold WalletService.connectWallet, WalletService.select_backend, try_catch,
    throw, console_error, mbind, M_bind, mret, M_ret,
    WalletService.isExtensionInstalled, WalletService.isLedgerSupported.
  destruct (strict_eq_str providerId "extension").
  { intros [= <-]. cbn. intros ->. eexists. split; [by left|reflexivity]. }
  destruct (strict_eq_str providerId "webwallet").
  { intros [= <-]. by cbn. }
  destruct (strict_eq_str providerId "walletconnect").
  { intros [= <-]. by cbn. }
  destruct (strict_eq_str providerId "ledger"); [|done].
  intros [= <-]. cbn. intros ->. eexists. split; [by right|reflexivity].
Qed.

Lemma connectWallet_not_installed_witness :
  ∃ msg, (msg = "MultiversX Extension not installed"
          ∨ msg = "Ledger not supported in this browser")
    ∧ WalletService.connectWallet (strict_env quiet_backend) (JStr "ledger") None
        (world_at 0) =
        (Returned (WalletService.failed msg),
         emit (EvConsoleError "Wallet connection error:") (world_at 0)).
Proof.
  apply (connectWallet_not_installed (strict_env quiet_backend) (JStr "ledger")
           None (world_at 0)
           {| WalletService.wp_id := "ledger";
              WalletService.wp_name := "Ledger Hardware";
              WalletService.wp_iconUrl := "/icons/ledger.svg";
              WalletService.wp_isInstalled := false |}); reflexivity.
Defined.

(** X12: the backend is put in memory before the login.  When the
    backend was chosen and its [login] throws, [connectWallet] answers
    [isConnected = false] with the login's message, yet the backend
    stays in [currentProvider]; storage is untouched. *)
Theorem connectWallet_login_fails_keeps_backend
    (env : Env) (providerId : JsVal) (callbackUrl : option string) (w : World)
    (b : Backend) (e : Thrown) :
  (WalletService.select_backend env providerId w).1 = Returned b →
  b_login b = Raised e →
  let run := WalletService.connectWallet env providerId callbackUrl w in
  run.1 = Returned (WalletService.failed (message_or e "Connection failed"))
  ∧ currentProvider run.2 = Some b
  ∧ storage run.2 = storage w.
Proof.
  intros Hsel Hlogin run. subst run.
  pose proof (select_backend_frame env providerId w) as (Hst & _ & _).
  unfold WalletService.connectWallet, try_catch, external, console_error,
    mbind, M_bind, mret, M_ret.
  destruct (WalletService.select_backend env providerId w) as [[b'|e'] w1];
    cbn in *; [|done].
  injection Hsel as ->. by rewrite Hlogin.
Qed.

Lemma connectWallet_login_fails_keeps_backend_witness :
  let run := WalletService.connectWallet (sample_env closing_backend)
               (JStr "webwallet") None (world_at 0) in
  run.1 = Returned (WalletService.failed
                      (message_or (ErrorObj "Login cancelled") "Connection failed"))
  ∧ currentProvider run.2 = Some (closing_backend "webwallet")
  ∧ storage run.2 = storage (world_at 0).
Proof.
  apply (connectWallet_login_fails_keeps_backend (sample_env closing_backend)
           (JStr "webwallet") None (world_at 0) (closing_backend "webwallet")
           (ErrorObj "Login cancelled")); reflexivity.
Defined.

(** ** Reconnecting *)

(** A [try]/[catch] whose handler returns always returns. *)
Lemma try_catch_returns {A} (body : M A) (handler : Thrown → M A) (w : World) :
  (∀ e w1, ∃ a w2, handler e w1 = (Returned a, w2)) →
  ∃ a w2, try_catch body handler w = (Returned a, w2).
Proof.
  intros Hhandler. unfold try_catch.
  destruct (body w) as [[a|e] w1]; [by eexists _, _|apply Hhandler].
Qed.

Lemma connectWallet_returns (env : Env) (providerId : JsVal)
    (callbackUrl : option string) (w : World) :
  ∃ ws w', WalletService.connectWallet env providerId callbackUrl w
           = (Returned ws, w').
Proof.
  unfold WalletService.connectWallet. apply try_catch_returns.
  intros e w1. by eexists _, _.
Qed.

(** A stored session younger than 24 hours whose provider is not the web
    wallet is handed to [connectWallet]. *)
Lemma autoReconnect_recent (env : Env) (w : World) (s : string) (parsed : JsVal)
    (c : Z) :
  storage w !! "wallet_state" = Some s →
  s ≠ EmptyString →
  JSON_parse env s = Returned parsed →
  js_get parsed "connectedAt" = JNum c →
  now w - c < 24 * 60 * 60 * 1000 →
  strict_eq_str (js_get parsed "providerId") "webwallet" = false →
  WalletService.autoReconnect env w =
    WalletService.connectWallet env (js_get parsed "providerId") None w.
Proof.
  intros Hstored Hs Hparse Hat Hrecent Hweb.
  assert (WalletService.isRecentConnection env (now w) (JNum c) = true) as Hrec.
  { unfold WalletService.isRecentConnection. cbn. by apply Z.ltb_lt. }
  unfold WalletService.autoReconnect, getItem, lift, Date_now, removeItem,
    mbind, M_bind, mret, M_ret, WalletService.no_item.
  rewrite Hstored.
  destruct (String.eqb_spec s EmptyString); [done|].
  unfold try_catch at 1. rewrite Hparse.
  destruct (connectWallet_returns env (js_get parsed "providerId") None w)
    as (ws & w' & Hrun).
  unfold js_get in *.
  destruct parsed; try discriminate;
    cbn -[WalletService.connectWallet WalletService.isRecentConnection] in *;
    try discriminate.
  rewrite Hat, Hrec, Hweb. cbn -[WalletService.connectWallet]. by rewrite Hrun.
Qed.

(** X13: a stored session younger than 24 hours whose provider is not
    the web wallet is reconnected through [connectWallet]; when that
    reconnection fails, the stored session is left in place, so
    [getCurrentWalletState] goes on answering [isConnected = true] with
    the stored address. *)
Theorem autoReconnect_failure_keeps_session
    (env : Env) (w : World) (s : string) (parsed : JsVal) (c : Z)
    (ws : WalletService.WalletState) :
  storage w !! "wallet_state" = Some s →
  s ≠ EmptyString →
  JSON_parse env s = Returned parsed →
  js_get parsed "connectedAt" = JNum c →
  now w - c < 24 * 60 * 60 * 1000 →
  strict_eq_str (js_get parsed "providerId") "webwallet" = false →
  (WalletService.autoReconnect env w).1 = Returned ws →
  WalletService.isConnected ws = false →
  let after := (WalletService.autoReconnect env w).2 in
  WalletService.autoReconnect env w
    = WalletService.connectWallet env (js_get parsed "providerId") None w
  ∧ storage after !! "wallet_state" = Some s
  ∧ ∃ seen, (WalletService.getCurrentWalletState env after).1 = Returned seen
      ∧ WalletService.isConnected seen = true
      ∧ WalletService.address seen = js_get parsed "address".
Proof.
  intros Hstored Hs Hparse Hat Hrecent Hweb Hrun Hoff after. subst after.
  pose proof (autoReconnect_recent env w s parsed c Hstored Hs Hparse Hat Hrecent Hweb)
    as Heq.
  rewrite Heq in *.
  assert (storage (WalletService.connectWallet env (js_get parsed "providerId")
                     None w).2 !! "wallet_state" = Some s) as Hkept.
  { by rewrite (connectWallet_failure_keeps_storage_aux env _ None w ws Hrun Hoff). }
  split; [done|]. split; [done|].
  assert (nullish parsed = false) as Hval by (by destruct parsed).
  rewrite (getCurrentWalletState_parsed env _ s parsed Hkept Hs Hparse Hval).
  eexists. split; [reflexivity|]. by cbn.
Qed.

Lemma autoReconnect_failure_keeps_session_witness :
  let env := foreign_env quiet_backend in
  let w := stored_world foreign_blob 5000 None in
  let after := (WalletService.autoReconnect env w).2 in
  WalletService.autoReconnect env w
    = WalletService.connectWallet env (js_get foreign_session "providerId") None w
  ∧ storage after !! "wallet_state" = Some foreign_blob
  ∧ ∃ seen, (WalletService.getCurrentWalletState env after).1 = Returned seen
      ∧ WalletService.isConnected seen = true
      ∧ WalletService.address seen = js_get foreign_session "address".
Proof.
  intros env w.
  apply (autoReconnect_failure_keeps_session env w foreign_blob foreign_session 1000
           (WalletService.failed "Unknown provider: metamask")).
  - reflexivity.
  - discriminate.
  - reflexivity.
  - reflexivity.
  - cbn. lia.
  - reflexivity.
  - reflexivity.
  - reflexivity.
Defined.

(** ** After disconnecting *)

(** X14: once [disconnectWallet] has run, the service is disconnected
    in every respect: [getCurrentWalletState] and [autoReconnect] answer
    the disconnected state and change nothing, [createProof] throws
    "Wallet not connected" and [signAndSendTransaction] throws "No
    wallet connected". *)
Theorem disconnected_after_disconnectWallet
    (env : Env) (w : World) (request : ContractService.CreateProofRequest)
    (transaction : Transaction) :
  let off := (WalletService.disconnectWallet w).2 in
  WalletService.getCurrentWalletState env off
    = (Returned WalletService.disconnected, off)
  ∧ WalletService.autoReconnect env off = (Returned WalletService.disconnected, off)
  ∧ ContractService.createProof env request off
    = (Raised (ErrorObj "Wallet not connected"), off)
  ∧ WalletService.signAndSendTransaction env transaction off
    = (Raised (ErrorObj "No wallet connected"), off).
Proof.
  intros off.
  assert (storage off !! "wallet_state" = None ∧ currentProvider off = None)
    as [Hst Hprov].
  { subst off.
    unfold WalletService.disconnectWallet, try_finally, try_catch,
      WalletService.getCurrentProvider, mbind, M_bind.
    destruct (currentProvider w) as [p|]; cbn.
    - destruct (b_logout p) as [[[]|e]|]; cbn; split; try done;
        apply lookup_delete_eq.
    - split; [apply lookup_delete_eq|done]. }
  assert (WalletService.getCurrentWalletState env off
          = (Returned WalletService.disconnected, off)) as Hstate.
  { unfold WalletService.getCurrentWalletState, getItem, mbind, M_bind.
    by rewrite Hst. }
  repeat split.
  - exact Hstate.
  - unfold WalletService.autoReconnect, getItem, mbind, M_bind. by rewrite Hst.
  - unfold ContractService.createProof, mbind, M_bind. by rewrite Hstate.
  - unfold WalletService.signAndSendTransaction, WalletService.getCurrentProvider,
      mbind, M_bind. cbn. by rewrite Hprov.
Qed.

(** ** Balances *)

(** X15: for an address that [isValidAddress] rejects, [getBalance]
    answers "0" without asking the network: the console log is the only
    call that leaves the program. *)
Theorem getBalance_invalid_address
    (env : Env) (address : string) (w : World) :
  WalletService.isValidAddress env address = false →
  WalletService.getBalance env address w
    = (Returned "0", emit (EvConsoleError "Error getting balance:") w).
Proof.
  unfold WalletService.isValidAddress, WalletService.getBalance, try_catch, lift,
    console_error, mbind, M_bind, mret, M_ret.
  by destruct (newAddress env (JStr address)).
Qed.

Lemma getBalance_invalid_address_witness :
  WalletService.getBalance (strict_env quiet_backend) "0xdeadbeef" (world_at 0)
    = (Returned "0", emit (EvConsoleError "Error getting balance:") (world_at 0)).
Proof.
  apply (getBalance_invalid_address (strict_env quiet_backend) "0xdeadbeef"
           (world_at 0)).
  reflexivity.
Defined.

(** ** Creating and updating, past the connected check *)

(** A handler that logs and throws [new Error(...)] throws an [Error]. *)
Lemma wrapped_error {A} (body : M A) (label fallback : string) (w : World)
    (e : Thrown) :
  (try_catch body
     (fun error => _ ← console_error label;
                   throw (ErrorObj (message_or error fallback))) w).1 = Raised e →
  ∃ cause, (body w).1 = Raised cause ∧ e = ErrorObj (message_or cause fallback).
Proof.
  unfold try_catch, console_error, throw, mbind, M_bind.
  destruct (body w) as [[a|cause] w1]; cbn; [done|].
  intros [= <-]. by exists cause.
Qed.

(** X16: whatever the SDK, the backend and the network do, what
    [createProof], [updateProof] and [signAndSendTransaction] throw is
    an [Error] object, never a bare value. *)
Theorem mutations_throw_errors
    (env : Env) (request : ContractService.CreateProofRequest)
    (update : ContractService.UpdateProofRequest) (transaction : Transaction)
    (w : World) (e : Thrown) :
  (ContractService.createProof env request w).1 = Raised e
  ∨ (ContractService.updateProof env update w).1 = Raised e
  ∨ (WalletService.signAndSendTransaction env transaction w).1 = Raised e →
  ∃ message, e = ErrorObj message.
Proof.
  intros [Hrun | [Hrun | Hrun]].
  - unfold ContractService.createProof, mbind, M_bind in Hrun.
    destruct (WalletService.getCurrentWalletState env w) as [[ws|e'] w1]
      eqn:Hstate.
    + destruct (negb (WalletService.isConnected ws)
                || negb (truthy (WalletService.address ws))).
      * injection Hrun as <-. by eexists.
      * apply wrapped_error in Hrun as (cause & _ & ->). by eexists.
    + destruct (getCurrentWalletState_returns env w) as (ws & Hws & _).
      rewrite Hstate in Hws. discriminate.
  - unfold ContractService.updateProof, mbind, M_bind in Hrun.
    destruct (WalletService.getCurrentWalletState env w) as [[ws|e'] w1]
      eqn:Hstate.
    + destruct (negb (WalletService.isConnected ws)
                || negb (truthy (WalletService.address ws))).
      * injection Hrun as <-. by eexists.
      * apply wrapped_error in Hrun as (cause & _ & ->). by eexists.
    + destruct (getCurrentWalletState_returns env w) as (ws & Hws & _).
      rewrite Hstate in Hws. discriminate.
  - unfold WalletService.signAndSendTransaction, WalletService.getCurrentProvider,
      mbind, M_bind in Hrun. cbn in Hrun.
    destruct (currentProvider w) as [p|].
    + apply wrapped_error in Hrun as (cause & _ & ->). by eexists.
    + injection Hrun as <-. by eexists.
Qed.

(** A backend that throws a bare string when asked to sign: the caller
    of [createProof] sees an [Error] all the same. *)
Lemma mutations_throw_errors_witness :
  ∃ message, ErrorObj "Transaction failed" = ErrorObj message.
Proof.
  apply (mutations_throw_errors (sample_env quiet_backend)
           {| ContractService.proof_text := "T"; ContractService.proof_id := "X";
              ContractService.metadata := None |}
           {| ContractService.upd_proof_id := "X";
              ContractService.new_proof_text := "T2";
              ContractService.new_metadata := None |}
           {| tx_func := "certify_action"; tx_args := [];
              tx_gasLimit := 20000000; tx_caller := sample_address |}
           (stored_world sample_blob 5000 (Some (refusing_backend "ledger")))
           (ErrorObj "Transaction failed")).
  left. reflexivity.
Defined.

(** X17: with a stored session, a backend in memory and an SDK, backend
    and network that all accept, [createProof] has the backend sign the
    call the SDK built for [certify_action] (the request's arguments,
    20,000,000 gas, the stored address as caller), then broadcasts that
    same transaction and returns the hash the network gave;
    [updateProof] does the same for [update_proof] with 15,000,000
    gas. *)
Theorem mutations_sign_then_broadcast
    (env : Env) (request : ContractService.CreateProofRequest)
    (update : ContractService.UpdateProofRequest)
    (w w1 : World) (ws : WalletService.WalletState) (p : Backend)
    (caller h h' : string) (tx tx' : Transaction) :
  WalletService.getCurrentWalletState env w = (Returned ws, w1) →
  WalletService.isConnected ws = true →
  truthy (WalletService.address ws) = true →
  newAddress env (WalletService.address ws) = Returned caller →
  currentProvider w1 = Some p →
  contractCall env {| tx_func := "certify_action";
                      tx_args := ContractService.createProof_args request;
                      tx_gasLimit := 20000000; tx_caller := caller |}
    = Returned tx →
  b_signTransaction p tx = Returned tt →
  sendTransaction env tx = Returned h →
  contractCall env {| tx_func := "update_proof";
                      tx_args := ContractService.updateProof_args update;
                      tx_gasLimit := 15000000; tx_caller := caller |}
    = Returned tx' →
  b_signTransaction p tx' = Returned tt →
  sendTransaction env tx' = Returned h' →
  ContractService.createProof env request w
    = (Returned h, emit (EvSendTransaction tx) (emit (EvSignTransaction tx) w1))
  ∧ ContractService.updateProof env update w
    = (Returned h', emit (EvSendTransaction tx') (emit (EvSignTransaction tx') w1)).
Proof.
  intros Hstate Hon Haddr Hcaller Hp Hcall Hsign Hsend Hcall' Hsign' Hsend'.
  unfold ContractService.createProof, ContractService.updateProof,
    WalletService.signAndSendTransaction, WalletService.getCurrentProvider,
    try_catch, lift, external, mbind, M_bind, mret, M_ret.
  rewrite Hstate, Hon, Haddr. cbn.
  rewrite Hcaller. cbn. rewrite Hcall, Hcall', Hp. cbn.
  by rewrite Hsign, Hsend, Hsign', Hsend'.
Qed.

Lemma mutations_sign_then_broadcast_witness :
  let env := sample_env quiet_backend in
  let w := stored_world sample_blob 5000 (Some (quiet_backend "extension")) in
  let request := {| ContractService.proof_text := "T";
                    ContractService.proof_id := "X";
                    ContractService.metadata := Some "{}" |} in
  let update := {| ContractService.upd_proof_id := "X";
                   ContractService.new_proof_text := "T2";
                   ContractService.new_metadata := None |} in
  let tx := {| tx_func := "certify_action";
               tx_args := [StringValue "T"; StringValue "X"; StringValue "{}"];
               tx_gasLimit := 20000000; tx_caller := sample_address |} in
  let tx' := {| tx_func := "update_proof";
                tx_args := [StringValue "X"; StringValue "T2"];
                tx_gasLimit := 15000000; tx_caller := sample_address |} in
  ContractService.createProof env request w
    = (Returned "txhash", emit (EvSendTransaction tx) (emit (EvSignTransaction tx) w))
  ∧ ContractService.updateProof env update w
    = (Returned "txhash",
       emit (EvSendTransaction tx') (emit (EvSignTransaction tx') w)).
Proof.
  intros env w request update tx tx'.
  apply (mutations_sign_then_broadcast env request update w w
           {| WalletService.isConnected := true;
              WalletService.address := JStr sample_address;
              WalletService.balance := None;
              WalletService.provider :=
                WalletService.find_provider env (JStr "extension");
              WalletService.isLoading := false;
              WalletService.error := None |}
           (quiet_backend "extension") sample_address "txhash" "txhash" tx tx');
    reflexivity.
Defined.

(** ** More on reading from the contract *)

(** A user address the SDK rejects never reaches the network:
    [getProof] answers null, [getUserProofs] the empty list and
    [getUserProofCount] 0, and the console log is the only call that
    leaves the program. *)
Theorem reads_reject_invalid_address
    (env : Env) (userAddress proofId : string) (w : World) (e : Thrown) :
  newAddress env (JStr userAddress) = Raised e →
  ContractService.getProof env userAddress proofId w
    = (Returned None, emit (EvConsoleError "Get proof error:") w)
  ∧ ContractService.getUserProofs env userAddress w
    = (Returned [], emit (EvConsoleError "Get user proofs error:") w)
  ∧ ContractService.getUserProofCount env userAddress w
    = (Returned (JNum 0), emit (EvConsoleError "Get user proof count error:") w).
Proof.
  intros Haddr.
  unfold ContractService.getProof, ContractService.getUserProofs,
    ContractService.getUserProofCount, try_catch, lift, console_error,
    mbind, M_bind, mret, M_ret.
  by rewrite Haddr.
Qed.

Lemma reads_reject_invalid_address_witness :
  let env := strict_env quiet_backend in
  let w := world_at 0 in
  ContractService.getProof env "0xdeadbeef" "X" w
    = (Returned None, emit (EvConsoleError "Get proof error:") w)
  ∧ ContractService.getUserProofs env "0xdeadbeef" w
    = (Returned [], emit (EvConsoleError "Get user proofs error:") w)
  ∧ ContractService.getUserProofCount env "0xdeadbeef" w
    = (Returned (JNum 0), emit (EvConsoleError "Get user proof count error:") w).
Proof.
  intros env w.
  apply (reads_reject_invalid_address env "0xdeadbeef" "X" w
           (ErrorObj "Invalid address")).
  reflexivity.
Defined.

(** X18: [getProofOwner] never throws, and it answers null when the
    query fails (the provider throws, the response has no data, or the
    parser throws). *)
Theorem getProofOwner_swallows
    (env : Env) (proofId : string) (w : World) :
  (∃ r, (ContractService.getProofOwner env proofId w).1 = Returned r)
  ∧ (read_fails env →
       (ContractService.getProofOwner env proofId w).1 = Returned None).
Proof.
  split; [apply swallowed_returns|].
  intros Hfail. apply swallowed_default. intros a. unfold_read.
  destruct (createQuery env _) as [query|?]; cbn; [|done].
  failing_query Hfail.
Qed.

Lemma getProofOwner_swallows_witness :
  (ContractService.getProofOwner (sample_env quiet_backend) "X" (world_at 0)).1
    = Returned None.
Proof.
  destruct (getProofOwner_swallows (sample_env quiet_backend) "X" (world_at 0))
    as [_ Hnull].
  apply Hnull. intros q. exact I.
Defined.

Section MapM.

Context {A B : Type} (f : A → Res B).

Lemma mapM_Res_cons (x : A) (l : list A) :
  mapM f (x :: l) =
    match f x with
    | Returned y => match mapM f l with
                    | Returned k => Returned (y :: k)
                    | Raised e => Raised e
                    end
    | Raised e => Raised e
    end.
Proof. reflexivity. Qed.

Lemma mapM_Res_length (l : list A) (r : list B) :
  mapM f l = Returned r → length r = length l.
Proof.
  revert r. induction l as [|x l IH]; intros r.
  - by intros [= <-].
  - rewrite mapM_Res_cons.
    destruct (f x) as [y|e]; [|done].
    destruct (mapM f l) as [k|e]; [|done].
    intros [= <-]. cbn. by rewrite (IH k).
Qed.

Lemma mapM_Res_raises (l : list A) (x : A) (e : Thrown) :
  x ∈ l → f x = Raised e → ∃ e', mapM f l = Raised e'.
Proof.
  intros Hin Hx. induction Hin as [x l|x y l Hin IH]; rewrite mapM_Res_cons.
  - rewrite Hx. by eexists.
  - destruct (f y) as [z|e']; [|by eexists].
    destruct (IH Hx) as [e' ->]. by eexists.
Qed.

End MapM.

(** A decoded proof that lacks a field cannot be turned into a record:
    [undefined.toString()] throws. *)
Lemma toProofData_lacking (env : Env) (proofData : JsVal) :
  lacks_field proofData = true →
  ∃ e, ContractService.toProofData env proofData = Raised e.
Proof.
  unfold lacks_field, js_get, ContractService.toProofData,
    ContractService.field_toString, ContractService.call_toString,
    mbind, Res_bind, mret, Res_ret.
  destruct (js_prop proofData "proof_text") as [v1|?]; [|by eexists].
  destruct (nullish v1); [by eexists|]. cbn [orb].
  destruct (toString env v1); [|by eexists].
  destruct (js_prop proofData "timestamp") as [v2|?]; [|by eexists].
  destruct (nullish v2); [by eexists|]. cbn [orb].
  destruct (toString env v2); [|by eexists].
  destruct (js_prop proofData "proof_id") as [v3|?]; [|by eexists].
  destruct (nullish v3); [by eexists|]. cbn [orb].
  destruct (toString env v3); [|by eexists].
  destruct (js_prop proofData "metadata") as [v4|?]; [|by eexists].
  destruct (nullish v4); [by eexists|done].
Qed.

(** X19: [getUserProofs] answers all the proofs of a decoded list or
    none of them: when the response decodes to a list of proofs, the
    result has one record per proof, or it is empty; and it is empty as
    soon as a single proof of the list cannot be turned into a record
    (for one, because it lacks a field). *)
Theorem getUserProofs_all_or_nothing
    (env : Env) (userAddress : string) (w : World) (user : string)
    (query : Query) (response : QueryResponse) (decoded : JsVal)
    (items : list JsVal) :
  newAddress env (JStr userAddress) = Returned user →
  createQuery env {| q_func := "getUserProofs"; q_args := [AddressValue user] |}
    = Returned query →
  queryContract env query = Returned response →
  ContractService.no_returnData response = false →
  parseQueryResponse env response = Returned decoded →
  truthy decoded = true →
  js_index decoded 0 = Returned (JArr items) →
  let run := ContractService.getUserProofs env userAddress w in
  (∃ l, run.1 = Returned l ∧ (length l = length items ∨ l = []))
  ∧ (∀ item, item ∈ items → lacks_field item = true → run.1 = Returned []).
Proof.
  intros Haddr Hquery Hresp Hdata Hparse Htruthy Hfirst run. subst run.
  unfold ContractService.getUserProofs, try_catch, lift, external, console_error,
    mbind, M_bind, mret, M_ret.
  rewrite Haddr. cbn. rewrite Hquery. cbn. rewrite Hresp. cbn.
  rewrite Hdata, Hparse, Htruthy, Hfirst. cbn.
  split.
  - destruct (mapM (ContractService.toProofData env) items) as [l|e] eqn:Hmap; cbn.
    + exists l. split; [done|]. left. by apply (mapM_Res_length _ _ _ Hmap).
    + exists []. by split; [|right].
  - intros item Hin Hlack.
    destruct (toProofData_lacking env item Hlack) as [e He].
    by destruct (mapM_Res_raises _ items item e Hin He) as [e' ->].
Qed.

Lemma getUserProofs_all_or_nothing_witness :
  let env := answering_env (JArr [JArr [sample_proof; headless_proof]]) in
  let run := ContractService.getUserProofs env sample_address (world_at 0) in
  (∃ l, run.1 = Returned l ∧ (length l = 2%nat ∨ l = []))
  ∧ (∀ item, item ∈ [sample_proof; headless_proof] →
       lacks_field item = true → run.1 = Returned []).
Proof.
  intros env.
  apply (getUserProofs_all_or_nothing env sample_address (world_at 0)
           sample_address
           {| q_func := "getUserProofs"; q_args := [AddressValue sample_address] |}
           {| returnData := Some ["AA=="]; isSuccess := true |}
           (JArr [JArr [sample_proof; headless_proof]])
           [sample_proof; headless_proof]); reflexivity.
Defined.

(** The list of the witness holds one proof that decodes and one that
    does not; the answer is the empty list. *)
Example getUserProofs_one_bad_proof :
  lacks_field sample_proof = false
  ∧ lacks_field headless_proof = true
  ∧ (ContractService.getUserProofs
       (answering_env (JArr [JArr [sample_proof; headless_proof]]))
       sample_address (world_at 0)).1 = Returned []
  ∧ (ContractService.getUserProofs
       (answering_env (JArr [JArr [sample_proof; sample_proof]]))
       sample_address (world_at 0)).1
    = Returned [ {| ContractService.pd_proof_text := "T";
                    ContractService.pd_timestamp := JNum 1700000000;
                    ContractService.pd_proof_id := "X";
                    ContractService.pd_metadata := "{}" |};
                 {| ContractService.pd_proof_text := "T";
                    ContractService.pd_timestamp := JNum 1700000000;
                    ContractService.pd_proof_id := "X";
                    ContractService.pd_metadata := "{}" |} ].
Proof. repeat split. Qed.

(** X20: [getProof] answers null for a decoded proof that lacks one of
    its four fields: the [toString] on the missing field throws and the
    handler swallows it. *)
Theorem getProof_lacking_field
    (env : Env) (userAddress proofId : string) (w : World) (user : string)
    (query : Query) (response : QueryResponse) (decoded proofData : JsVal) :
  newAddress env (JStr userAddress) = Returned user →
  createQuery env {| q_func := "getProof";
                     q_args := [AddressValue user; StringValue proofId] |}
    = Returned query →
  queryContract env query = Returned response →
  parseQueryResponse env response = Returned decoded →
  js_index decoded 0 = Returned proofData →
  lacks_field proofData = true →
  (ContractService.getProof env userAddress proofId w).1 = Returned None.
Proof.
  intros Haddr Hquery Hresp Hparse Hfirst Hlack.
  apply swallowed_default. intros a.
  unfold lift, external, mbind, M_bind, mret, M_ret.
  rewrite Haddr. cbn. rewrite Hquery. cbn. rewrite Hresp. cbn.
  destruct (ContractService.no_returnData response); cbn; [congruence|].
  rewrite Hparse. cbn.
  destruct (truthy decoded); cbn; [|congruence].
  rewrite Hfirst. cbn.
  destruct (truthy proofData); cbn; [|congruence].
  by destruct (toProofData_lacking env proofData Hlack) as [e ->].
Qed.

Lemma getProof_lacking_field_witness :
  (ContractService.getProof (answering_env (JArr [headless_proof]))
     sample_address "X" (world_at 0)).1 = Returned None.
Proof.
  apply (getProof_lacking_field (answering_env (JArr [headless_proof]))
           sample_address "X" (world_at 0) sample_address
           {| q_func := "getProof";
              q_args := [AddressValue sample_address; StringValue "X"] |}
           {| returnData := Some ["AA=="]; isSuccess := true |}
           (JArr [headless_proof]) headless_proof); reflexivity.
Defined.

(** X21: [proofExists] answers a truthy value only when the response
    decoded to a value whose first element is the boolean [true], and
    that answer is then [true] itself. *)
Theorem proofExists_truthy_only_for_true
    (env : Env) (proofId : string) (w : World) (r : JsVal) :
  (ContractService.proofExists env proofId w).1 = Returned r →
  truthy r = true →
  r = JBool true
  ∧ ∃ query response decoded,
      queryContract env query = Returned response
      ∧ parseQueryResponse env response = Returned decoded
      ∧ js_index decoded 0 = Returned (JBool true).
Proof.
  unfold ContractService.proofExists, try_catch, lift, external, console_error,
    mbind, M_bind, mret, M_ret.
  destruct (createQuery env _) as [query|?]; cbn; [|by intros [= <-]].
  destruct (queryContract env query) as [response|?] eqn:Hresp; cbn;
    [|by intros [= <-]].
  destruct (ContractService.no_returnData response); cbn; [by intros [= <-]|].
  destruct (parseQueryResponse env response) as [decoded|?] eqn:Hparse; cbn;
    [|by intros [= <-]].
  destruct (truthy decoded) eqn:Htruthy; cbn.
  - destruct (js_index decoded 0) as [first|?] eqn:Hfirst; cbn; [|by intros [= <-]].
    intros [= <-] Hr. cbn in Hr.
    assert (first = JBool true) as -> by (by destruct first as [| |[]| | | | |]).
    split; [done|]. by exists query, response, decoded.
  - intros [= <-] Hr. congruence.
Qed.

Lemma proofExists_truthy_only_for_true_witness :
  JBool true = JBool true
  ∧ ∃ query response decoded,
      queryContract (answering_env (JArr [JBool true])) query = Returned response
      ∧ parseQueryResponse (answering_env (JArr [JBool true])) response
        = Returned decoded
      ∧ js_index decoded 0 = Returned (JBool true).
Proof.
  apply (proofExists_truthy_only_for_true (answering_env (JArr [JBool true])) "X"
           (world_at 0) (JBool true)); reflexivity.
Defined.

(** X22: each read of the first service sends at most one query to the
    network, whatever the SDK, the provider and the parser do. *)
Theorem reads_query_at_most_once
    (env : Env) (userAddress proofId : string) (w : World) :
  (queries (trace (ContractService.getProof env userAddress proofId w).2)
     ≤ S (queries (trace w)))%nat
  ∧ (queries (trace (ContractService.getUserProofs env userAddress w).2)
       ≤ S (queries (trace w)))%nat
  ∧ (queries (trace (ContractService.proofExists env proofId w).2)
       ≤ S (queries (trace w)))%nat
  ∧ (queries (trace (ContractService.getProofOwner env proofId w).2)
       ≤ S (queries (trace w)))%nat
  ∧ (queries (trace (ContractService.getUserProofCount env userAddress w).2)
       ≤ S (queries (trace w)))%nat
  ∧ (queries (trace (ContractService.getTotalProofs env w).2)
       ≤ S (queries (trace w)))%nat.
Proof.
  unfold ContractService.getProof, ContractService.getUserProofs,
    ContractService.proofExists, ContractService.getProofOwner,
    ContractService.getUserProofCount, ContractService.getTotalProofs,
    try_catch, lift, external, console_error, mbind, M_bind, mret, M_ret.
  repeat split;
    repeat match goal with
           | |- context [match ?x with _ => _ end] =>
               match type of x with
               | Res _ => destruct x
               | bool => destruct x
               | JsVal => destruct x
               end; cbn -[mapM]
           end; lia.
Qed.

(** ** Validating what the user types *)

Section Validation.

Import ModernContractService.

Lemma all_chars_rev_app (test : ascii → bool) (s1 s2 : string) :
  all_chars test (String.rev_app s1 s2) = all_chars test s1 && all_chars test s2.
Proof.
  revert s2. induction s1 as [|c s1 IH]; intros s2; cbn; [done|].
  rewrite IH. cbn. destruct (test c), (all_chars test s1); cbn; try done.
Qed.

Lemma all_chars_rev (test : ascii → bool) (s : string) :
  all_chars test (String.rev s) = all_chars test s.
Proof.
  unfold String.rev. rewrite all_chars_rev_app. cbn. apply andb_true_r.
Qed.

Lemma trim_start_empty (s : string) :
  trim_start s = EmptyString ↔ all_chars is_space s = true.
Proof.
  induction s as [|c s IH]; cbn; [done|].
  destruct (is_space c); cbn; [done|]. split; discriminate.
Qed.

Lemma all_chars_trim_start (s : string) :
  all_chars is_space (trim_start s) = all_chars is_space s.
Proof.
  induction s as [|c s IH]; cbn; [done|].
  destruct (is_space c) eqn:Hc; cbn; [done|]. by rewrite Hc.
Qed.

Lemma rev_app_empty (s1 s2 : string) :
  String.rev_app s1 s2 = EmptyString ↔ s1 = EmptyString ∧ s2 = EmptyString.
Proof.
  revert s2. induction s1 as [|c s1 IH]; intros s2; cbn.
  - split; [by intros ->|by intros [_ ->]].
  - rewrite IH. split; [by intros [_ ?]|by intros [? _]].
Qed.

Lemma length_zero (s : string) :
  (String.length s =? 0)%nat = true ↔ s = EmptyString.
Proof. by destruct s. Qed.

(** A string is blank exactly when it holds nothing but white space. *)
Lemma is_blank_spec (s : string) :
  is_blank s = all_chars is_space s.
Proof.
  unfold is_blank.
  destruct (all_chars is_space s) eqn:Hall.
  - apply orb_true_iff. right. apply length_zero.
    unfold trim, String.rev at 1. apply rev_app_empty. split; [|done].
    apply trim_start_empty. by rewrite all_chars_rev, all_chars_trim_start.
  - apply orb_false_iff. split.
    + apply String.eqb_neq. by intros ->.
    + apply not_true_is_false. rewrite length_zero.
      unfold trim, String.rev at 1. rewrite rev_app_empty.
      intros [Hempty _]. apply trim_start_empty in Hempty.
      rewrite all_chars_rev, all_chars_trim_start in Hempty. congruence.
Qed.

Lemma id_char_not_space (c : ascii) : is_id_char c = true → is_space c = false.
Proof. destruct c as [[] [] [] [] [] [] [] []]; vm_compute; congruence. Qed.

Lemma id_pattern_not_blank (s : string) : id_pattern s = true → is_blank s = false.
Proof.
  rewrite is_blank_spec. unfold id_pattern.
  destruct s as [|c s]; cbn; [done|].
  intros H. apply andb_true_iff in H as [Hc _].
  by rewrite (id_char_not_space c Hc).
Qed.

End Validation.

(** An implication from an equation between distinct constructors. *)
Ltac absurd_eq := let H := fresh in intros H; discriminate H.

(** X23: [validateProofId] accepts exactly the identifiers of 1 to 100
    characters drawn from letters, digits, underscore and hyphen; an
    accepted identifier carries no error and a rejected one carries a
    message. *)
Theorem validateProofId_accepts (proofId : string) :
  (ModernContractService.valid (ModernContractService.validateProofId proofId) = true
   ↔ (1 ≤ String.length proofId ≤ 100)%nat
     ∧ ModernContractService.all_chars ModernContractService.is_id_char proofId = true)
  ∧ (ModernContractService.error (ModernContractService.validateProofId proofId) = None
     ↔ ModernContractService.valid (ModernContractService.validateProofId proofId)
       = true).
Proof.
  assert ((1 ≤ String.length proofId)%nat →
          ModernContractService.all_chars ModernContractService.is_id_char proofId
            = true →
          ModernContractService.id_pattern proofId = true) as Hpattern.
  { intros Hlen Hall. unfold ModernContractService.id_pattern. rewrite Hall.
    destruct proofId; cbn in *; [lia|done]. }
  unfold ModernContractService.validateProofId.
  destruct (ModernContractService.is_blank proofId) eqn:Hblank;
    cbn [ModernContractService.valid ModernContractService.error].
  { split; (split; [absurd_eq|]); [|absurd_eq].
    intros [[Hlen _] Hall].
    pose proof (id_pattern_not_blank _ (Hpattern Hlen Hall)). congruence. }
  destruct (Nat.ltb_spec 100 (String.length proofId));
    cbn [ModernContractService.valid ModernContractService.error].
  { split; (split; [absurd_eq|]); [|absurd_eq]. intros [Hlen _]. lia. }
  destruct (ModernContractService.id_pattern proofId) eqn:Hpat;
    cbn [ModernContractService.valid ModernContractService.error negb].
  - split; [|done]. split; [|done]. intros _.
    unfold ModernContractService.id_pattern in Hpat.
    apply andb_true_iff in Hpat as [Hne Hall].
    split; [|done]. destruct proofId; cbn in *; [done|lia].
  - split; (split; [absurd_eq|]); [|absurd_eq].
    intros [[Hlen _] Hall]. exact (Hpattern Hlen Hall).
Qed.

(** The two cases the development guide tests. *)
Example validateProofId_documented :
  ModernContractService.validateProofId "VALID_ID_123"
    = {| ModernContractService.valid := true; ModernContractService.error := None |}
  ∧ ModernContractService.validateProofId EmptyString
    = {| ModernContractService.valid := false;
         ModernContractService.error := Some "Proof ID cannot be empty" |}.
Proof. split; reflexivity. Qed.

(** X24: [validateProofText] accepts exactly the texts of at most 500
    characters that hold something other than white space; an accepted
    text carries no error and a rejected one carries a message. *)
Theorem validateProofText_accepts (proofText : string) :
  (ModernContractService.valid (ModernContractService.validateProofText proofText)
     = true
   ↔ ModernContractService.all_chars ModernContractService.is_space proofText = false
     ∧ (String.length proofText ≤ 500)%nat)
  ∧ (ModernContractService.error (ModernContractService.validateProofText proofText)
       = None
     ↔ ModernContractService.valid
         (ModernContractService.validateProofText proofText) = true).
Proof.
  unfold ModernContractService.validateProofText.
  rewrite is_blank_spec.
  destruct (ModernContractService.all_chars ModernContractService.is_space proofText);
    cbn [ModernContractService.valid ModernContractService.error].
  { split; (split; [absurd_eq|]); [|absurd_eq]. by intros [? _]. }
  destruct (Nat.ltb_spec 500 (String.length proofText));
    cbn [ModernContractService.valid ModernContractService.error].
  - split; (split; [absurd_eq|]); [|absurd_eq]. intros [_ Hlen]. lia.
  - split; [|done]. split; [|done]. intros _. split; [done|lia].
Qed.

(** An identifier that [validateProofId] accepts is also accepted
    as a proof text by [validateProofText]. *)
Theorem valid_id_is_valid_text (s : string) :
  ModernContractService.valid (ModernContractService.validateProofId s) = true →
  ModernContractService.valid (ModernContractService.validateProofText s) = true.
Proof.
  unfold ModernContractService.validateProofId,
    ModernContractService.validateProofText.
  destruct (ModernContractService.is_blank s);
    cbn [ModernContractService.valid]; [done|].
  destruct (Nat.ltb_spec 100 (String.length s));
    cbn [ModernContractService.valid]; [done|].
  destruct (Nat.ltb_spec 500 (String.length s));
    cbn [ModernContractService.valid]; [lia|done].
Qed.

Lemma valid_id_is_valid_text_witness :
  ModernContractService.valid
    (ModernContractService.validateProofText "VALID_ID_123") = true.
Proof.
  apply (valid_id_is_valid_text "VALID_ID_123"). reflexivity.
Defined.

(** ** The modern service: empty answers and missing fields *)

(** X25: when the SDK builds the query and the provider answers with a
    response that is unsuccessful, or successful but without data, the
    reads of the modern service answer their defaults (null, the empty
    list, false, 0) and do not throw. *)
Theorem modern_reads_default_on_empty_response
    (env : Env) (userAddress proofId : string) (w : World)
    (response : QueryResponse) :
  sdk_builds env →
  (∀ q, queryContract env q = Returned response) →
  isSuccess response = false ∨ returnData response = Some [] →
  (ModernContractService.getProof env userAddress proofId w).1 = Returned None
  ∧ (ModernContractService.getUserProofs env userAddress w).1 = Returned []
  ∧ (ModernContractService.getUserProofIds env userAddress w).1 = Returned []
  ∧ (ModernContractService.getProofOwner env proofId w).1 = Returned None
  ∧ (ModernContractService.proofExists env proofId w).1 = Returned false
  ∧ (ModernContractService.getUserProofCount env userAddress w).1
    = Returned (JNum 0)
  ∧ (ModernContractService.getTotalProofs env w).1 = Returned (JNum 0).
Proof.
  intros [Haddr Hbuild] Hresp Hempty.
  assert (ModernContractService.has_data response = Returned false) as Hdata.
  { unfold ModernContractService.has_data.
    destruct Hempty as [-> | Hnone]; [done|].
    rewrite Hnone. by destruct (isSuccess response). }
  destruct (Haddr userAddress) as [user Huser].
  unfold ModernContractService.getProof, ModernContractService.getUserProofs,
    ModernContractService.getUserProofIds, ModernContractService.getProofOwner,
    ModernContractService.proofExists, ModernContractService.getUserProofCount,
    ModernContractService.getTotalProofs, try_catch, lift, external,
    mbind, M_bind, mret, M_ret.
  rewrite Huser. cbn.
  repeat split;
    match goal with
    | |- context [buildQuery env ?q] =>
        destruct (Hbuild q) as [query ->]; cbn; rewrite Hresp; cbn;
        by rewrite Hdata
    end.
Qed.

Lemma modern_reads_default_on_empty_response_witness :
  let env := refusing_network in
  let w := world_at 0 in
  (ModernContractService.getProof env sample_address "X" w).1 = Returned None
  ∧ (ModernContractService.getUserProofs env sample_address w).1 = Returned []
  ∧ (ModernContractService.getUserProofIds env sample_address w).1 = Returned []
  ∧ (ModernContractService.getProofOwner env "X" w).1 = Returned None
  ∧ (ModernContractService.proofExists env "X" w).1 = Returned false
  ∧ (ModernContractService.getUserProofCount env sample_address w).1
    = Returned (JNum 0)
  ∧ (ModernContractService.getTotalProofs env w).1 = Returned (JNum 0).
Proof.
  intros env w.
  apply (modern_reads_default_on_empty_response env sample_address "X" w
           {| returnData := Some ["AA=="]; isSuccess := false |}).
  - split; [intros s|intros q]; eexists; reflexivity.
  - intros q. reflexivity.
  - left. reflexivity.
Defined.

(** X26: the modern [parseProofData] tolerates missing fields where the
    first service's conversion throws: for a decoded proof that is an
    object and whose values' [toString] return, it returns a record in
    which a missing (undefined or null) text, id or metadata reads as
    the empty string and a missing timestamp as [parseInt("0")]. *)
Theorem parseProofData_tolerates_missing_fields (env : Env) (data : JsVal) :
  nullish data = false →
  (∀ v, ∃ s, toString env v = Returned s) →
  ∃ record, ModernContractService.parseProofData env data = Returned record
    ∧ (nullish (js_get data "proof_text") = true →
         ContractService.pd_proof_text record = EmptyString)
    ∧ (nullish (js_get data "timestamp") = true →
         ContractService.pd_timestamp record = parseInt env "0")
    ∧ (nullish (js_get data "proof_id") = true →
         ContractService.pd_proof_id record = EmptyString)
    ∧ (nullish (js_get data "metadata") = true →
         ContractService.pd_metadata record = EmptyString).
Proof.
  intros Hdata Hstr.
  assert (∀ field fallback,
            ∃ s, ModernContractService.field_or env data field fallback = Returned s
                 ∧ (nullish (js_get data field) = true → s = fallback)) as Hfield.
  { intros field fallback.
    unfold ModernContractService.field_or, js_get, mbind, Res_bind, mret, Res_ret.
    destruct (js_prop data field) as [v|e] eqn:Hv.
    - destruct (nullish v); [by eexists|].
      destruct (Hstr v) as [s ->]. eexists. split; [done|]. done.
    - by destruct data. }
  unfold ModernContractService.parseProofData, mbind, Res_bind, mret, Res_ret.
  destruct (Hfield "proof_text" EmptyString) as (s1 & -> & H1).
  destruct (Hfield "timestamp" "0") as (s2 & -> & H2).
  destruct (Hfield "proof_id" EmptyString) as (s3 & -> & H3).
  destruct (Hfield "metadata" EmptyString) as (s4 & -> & H4).
  eexists. split; [reflexivity|]. cbn.
  repeat split; try done. intros Hn. by rewrite (H2 Hn).
Qed.

Lemma parseProofData_tolerates_missing_fields_witness :
  ∃ record,
    ModernContractService.parseProofData (sample_env quiet_backend) headless_proof
      = Returned record
    ∧ ContractService.pd_proof_id record = EmptyString
    ∧ ∃ e, ContractService.toProofData (sample_env quiet_backend) headless_proof
           = Raised e.
Proof.
  destruct (parseProofData_tolerates_missing_fields (sample_env quiet_backend)
              headless_proof) as (record & Hrecord & _ & _ & Hid & _).
  - reflexivity.
  - intros v. destruct v; eexists; reflexivity.
  - exists record. split; [exact Hrecord|]. split; [by apply Hid|].
    eexists. reflexivity.
Defined.

(** ** The modern service's mutating calls *)

Section ModernMutations.

Import ModernWrites.

Context (sdk : Sdk) (config : DeploymentConfig).

(** Unfolding the monad of the modern service. *)
Ltac unfold_service :=
  unfold certifyAction, updateProof, getUserAccount, getUserAddress, sign,
    waitForTransaction, attempt, call, pure_step, raise, get_walletProvider,
    mbind, S_bind, mret, S_ret.

(** What a returned hash of [certifyAction] stands for. *)
Lemma certifyAction_returned (params : ModernContractService.CertifyActionParams)
    (sv : Service) (h : string) :
  (certifyAction sdk config params sv).1 = Returned h →
  ∃ p sender n,
    walletProvider sv = Some p
    ∧ let transaction :=
        {| t_func := "certifyAction";
           t_args := ModernContractService.certifyAction_args params;
           t_sender := sender; t_gasLimit := 50000000;
           t_chainID := chainId config; t_nonce := n |} in
      getAccount sdk sender = Returned n
      ∧ sp_signTransaction p transaction = Returned tt
      ∧ sendTx sdk transaction = Returned h
      ∧ awaitCompleted sdk h = Returned tt.
Proof.
  unfold_service. cbn.
  destruct (walletProvider sv) as [p|] eqn:Hp; cbn; [|done].
  rewrite Hp. cbn.
  destruct (sp_getAddress p) as [a|?]; cbn; [|done].
  destruct (mkAddress sdk a) as [sender|?]; cbn; [|done].
  destruct (getAccount sdk sender) as [n|?] eqn:Hn; cbn; [|done].
  destruct (methodsExplicit sdk _ _) as [[]|?]; cbn; [|done].
  rewrite Hp. cbn.
  destruct (sp_signTransaction p _) as [[]|?] eqn:Hsign; cbn; [|done].
  destruct (sendTx sdk _) as [h'|?] eqn:Hsend; cbn; [|done].
  destruct (awaitCompleted sdk h') as [[]|?] eqn:Hwait; cbn; [|done].
  intros [= <-]. by exists p, sender, n.
Qed.

Lemma updateProof_returned (params : ModernContractService.UpdateProofParams)
    (sv : Service) (h : string) :
  (updateProof sdk config params sv).1 = Returned h →
  ∃ p sender n,
    walletProvider sv = Some p
    ∧ let transaction :=
        {| t_func := "updateProof";
           t_args := ModernContractService.updateProof_args params;
           t_sender := sender; t_gasLimit := 30000000;
           t_chainID := chainId config; t_nonce := n |} in
      getAccount sdk sender = Returned n
      ∧ sp_signTransaction p transaction = Returned tt
      ∧ sendTx sdk transaction = Returned h
      ∧ awaitCompleted sdk h = Returned tt.
Proof.
  unfold_service. cbn.
  destruct (walletProvider sv) as [p|] eqn:Hp; cbn; [|done].
  rewrite Hp. cbn.
  destruct (sp_getAddress p) as [a|?]; cbn; [|done].
  destruct (mkAddress sdk a) as [sender|?]; cbn; [|done].
  destruct (getAccount sdk sender) as [n|?] eqn:Hn; cbn; [|done].
  destruct (methodsExplicit sdk _ _) as [[]|?]; cbn; [|done].
  rewrite Hp. cbn.
  destruct (sp_signTransaction p _) as [[]|?] eqn:Hsign; cbn; [|done].
  destruct (sendTx sdk _) as [h'|?] eqn:Hsend; cbn; [|done].
  destruct (awaitCompleted sdk h') as [[]|?] eqn:Hwait; cbn; [|done].
  intros [= <-]. by exists p, sender, n.
Qed.

End ModernMutations.

(** X27: the mutating calls of the modern service fail fast without a
    wallet provider: [certifyAction] and [updateProof] throw "Wallet not
    connected" and no call leaves the service. *)
Theorem modern_mutations_need_wallet
    (sdk : ModernWrites.Sdk) (config : ModernWrites.DeploymentConfig)
    (params : ModernContractService.CertifyActionParams)
    (changes : ModernContractService.UpdateProofParams)
    (sv : ModernWrites.Service) :
  ModernWrites.walletProvider sv = None →
  ModernWrites.certifyAction sdk config params sv
    = (Raised (ErrorObj "Wallet not connected"), sv)
  ∧ ModernWrites.updateProof sdk config changes sv
    = (Raised (ErrorObj "Wallet not connected"), sv).
Proof.
  intros Hnone.
  unfold ModernWrites.certifyAction, ModernWrites.updateProof,
    ModernWrites.get_walletProvider, ModernWrites.raise, mbind, ModernWrites.S_bind.
  cbn. by rewrite Hnone.
Qed.

Lemma modern_mutations_need_wallet_witness :
  let sdk := ModernWrites.sample_sdk ModernWrites.willing (Returned tt) in
  let config := ModernWrites.devnet "erd1contract" in
  ModernWrites.certifyAction sdk config
    {| ModernContractService.proofText := "T"; ModernContractService.proofId := "X";
       ModernContractService.metadata := None |} ModernWrites.fresh
    = (Raised (ErrorObj "Wallet not connected"), ModernWrites.fresh)
  ∧ ModernWrites.updateProof sdk config
      {| ModernContractService.upd_proofId := "X";
         ModernContractService.newProofText := "T2";
         ModernContractService.newMetadata := None |} ModernWrites.fresh
    = (Raised (ErrorObj "Wallet not connected"), ModernWrites.fresh).
Proof.
  intros sdk config.
  apply (modern_mutations_need_wallet sdk config _ _ ModernWrites.fresh).
  reflexivity.
Defined.

(** X28: a hash that the modern [certifyAction] or [updateProof] returns
    is the hash the network gave for a transaction that was built from
    the parameters (the endpoint, the three arguments, 50,000,000 gas
    for a creation and 30,000,000 for an update, the configured chain,
    the account's nonce), signed by the wallet provider, and watched
    until it completed. *)
Theorem modern_mutations_return_completed
    (sdk : ModernWrites.Sdk) (config : ModernWrites.DeploymentConfig)
    (params : ModernContractService.CertifyActionParams)
    (changes : ModernContractService.UpdateProofParams)
    (sv : ModernWrites.Service) (h : string) :
  (ModernWrites.certifyAction sdk config params sv).1 = Returned h
  ∨ (ModernWrites.updateProof sdk config changes sv).1 = Returned h →
  ∃ p transaction,
    ModernWrites.walletProvider sv = Some p
    ∧ ModernWrites.sp_signTransaction p transaction = Returned tt
    ∧ ModernWrites.sendTx sdk transaction = Returned h
    ∧ ModernWrites.awaitCompleted sdk h = Returned tt
    ∧ ModernWrites.t_chainID transaction = ModernWrites.chainId config
    ∧ ModernWrites.getAccount sdk (ModernWrites.t_sender transaction)
      = Returned (ModernWrites.t_nonce transaction)
    ∧ length (ModernWrites.t_args transaction) = 3%nat
    ∧ ((ModernWrites.t_func transaction = "certifyAction"
        ∧ ModernWrites.t_args transaction
          = ModernContractService.certifyAction_args params
        ∧ ModernWrites.t_gasLimit transaction = 50000000)
       ∨ (ModernWrites.t_func transaction = "updateProof"
          ∧ ModernWrites.t_args transaction
            = ModernContractService.updateProof_args changes
          ∧ ModernWrites.t_gasLimit transaction = 30000000)).
Proof.
  assert (∀ params, length (ModernContractService.certifyAction_args params) = 3%nat)
    as Hthree.
  { intros ps. unfold ModernContractService.certifyAction_args.
    destruct (ModernContractService.metadata ps) as [m|]; [|done].
    by destruct (ContractService.provided (Some m)). }
  assert (∀ ps, length (ModernContractService.updateProof_args ps) = 3%nat)
    as Hthree'.
  { intros ps. unfold ModernContractService.updateProof_args.
    destruct (ModernContractService.newMetadata ps) as [m|]; [|done].
    by destruct (ContractService.provided (Some m)). }
  intros [Hrun | Hrun].
  - apply certifyAction_returned in Hrun
      as (p & sender & n & Hp & Hn & Hsign & Hsend & Hwait).
    eexists p, _. repeat split; try eassumption; try done.
    + apply Hthree.
    + by left.
  - apply updateProof_returned in Hrun
      as (p & sender & n & Hp & Hn & Hsign & Hsend & Hwait).
    eexists p, _. repeat split; try eassumption; try done.
    + apply Hthree'.
    + by right.
Qed.

Lemma modern_mutations_return_completed_witness :
  let sdk := ModernWrites.sample_sdk ModernWrites.willing (Returned tt) in
  ∃ p transaction,
    Some (ModernWrites.willing "extension") = Some p
    ∧ ModernWrites.sp_signTransaction p transaction = Returned tt
    ∧ ModernWrites.sendTx sdk transaction = Returned "txhash"
    ∧ ModernWrites.awaitCompleted sdk "txhash" = Returned tt
    ∧ ModernWrites.t_chainID transaction = "D"
    ∧ ModernWrites.getAccount sdk (ModernWrites.t_sender transaction)
      = Returned (ModernWrites.t_nonce transaction)
    ∧ length (ModernWrites.t_args transaction) = 3%nat
    ∧ ((ModernWrites.t_func transaction = "certifyAction"
        ∧ ModernWrites.t_args transaction
          = ModernContractService.certifyAction_args
              {| ModernContractService.proofText := "T";
                 ModernContractService.proofId := "X";
                 ModernContractService.metadata := Some "{}" |}
        ∧ ModernWrites.t_gasLimit transaction = 50000000)
       ∨ (ModernWrites.t_func transaction = "updateProof"
          ∧ ModernWrites.t_args transaction
            = ModernContractService.updateProof_args
                {| ModernContractService.upd_proofId := "X";
                   ModernContractService.newProofText := "T2";
                   ModernContractService.newMetadata := None |}
          ∧ ModernWrites.t_gasLimit transaction = 30000000)).
Proof.
  intros sdk.
  apply (modern_mutations_return_completed sdk (ModernWrites.devnet "erd1contract")
           _ _
           {| ModernWrites.walletProvider := Some (ModernWrites.willing "extension");
              ModernWrites.calls := [] |} "txhash").
  left. reflexivity.
Defined.

(** X29: when the watcher throws after the broadcast (a timeout, a
    failed transaction), the modern [certifyAction] throws the watcher's
    error, although the transaction was signed and sent: the calls that
    left the service end with the signature, the broadcast, the watch
    and the console message. *)
Theorem modern_certifyAction_fails_after_broadcast
    (sdk : ModernWrites.Sdk) (config : ModernWrites.DeploymentConfig)
    (params : ModernContractService.CertifyActionParams)
    (sv : ModernWrites.Service) (p : ModernWrites.SigningProvider)
    (a sender h : string) (n : Z) (e : Thrown) :
  let transaction :=
    {| ModernWrites.t_func := "certifyAction";
       ModernWrites.t_args := ModernContractService.certifyAction_args params;
       ModernWrites.t_sender := sender; ModernWrites.t_gasLimit := 50000000;
       ModernWrites.t_chainID := ModernWrites.chainId config;
       ModernWrites.t_nonce := n |} in
  ModernWrites.walletProvider sv = Some p →
  ModernWrites.sp_getAddress p = Returned a →
  ModernWrites.mkAddress sdk a = Returned sender →
  ModernWrites.getAccount sdk sender = Returned n →
  ModernWrites.methodsExplicit sdk "certifyAction"
    (ModernContractService.certifyAction_args params) = Returned tt →
  ModernWrites.sp_signTransaction p transaction = Returned tt →
  ModernWrites.sendTx sdk transaction = Returned h →
  ModernWrites.awaitCompleted sdk h = Raised e →
  let run := ModernWrites.certifyAction sdk config params sv in
  run.1 = Raised e
  ∧ ModernWrites.calls run.2 =
      [ModernWrites.CallConsoleError "Error certifying action:";
       ModernWrites.CallAwaitCompleted h; ModernWrites.CallSend transaction;
       ModernWrites.CallSign transaction; ModernWrites.CallGetAccount sender;
       ModernWrites.CallGetAddress] ++ ModernWrites.calls sv.
Proof.
  intros transaction Hp Haddr Hmk Hacc Hint Hsign Hsend Hwait run.
  subst run transaction.
  unfold ModernWrites.certifyAction, ModernWrites.getUserAccount,
    ModernWrites.getUserAddress, ModernWrites.sign, ModernWrites.waitForTransaction,
    ModernWrites.attempt, ModernWrites.call, ModernWrites.pure_step,
    ModernWrites.raise, ModernWrites.get_walletProvider,
    mbind, ModernWrites.S_bind, mret, ModernWrites.S_ret.
  cbn. rewrite Hp. cbn. rewrite Hp. cbn. rewrite Haddr. cbn. rewrite Hmk. cbn.
  rewrite Hacc. cbn. rewrite Hint. cbn. rewrite Hp. cbn. rewrite Hsign. cbn.
  rewrite Hsend. cbn. by rewrite Hwait.
Qed.

Lemma modern_certifyAction_fails_after_broadcast_witness :
  let sdk := ModernWrites.sample_sdk ModernWrites.willing
               (Raised (ErrorObj "Transaction timeout")) in
  let config := ModernWrites.devnet "erd1contract" in
  let params := {| ModernContractService.proofText := "T";
                   ModernContractService.proofId := "X";
                   ModernContractService.metadata := None |} in
  let sender := ModernWrites.acc_address
                  {| ModernWrites.acc_address :=
                       "erd1qyu5wthldzr8wx5c9ucg8kjagg0jfs53s8nr3zpz3hypefsdd8ssycr6th";
                     ModernWrites.acc_nonce := 7 |} in
  let transaction :=
    {| ModernWrites.t_func := "certifyAction";
       ModernWrites.t_args := ModernContractService.certifyAction_args params;
       ModernWrites.t_sender := sender; ModernWrites.t_gasLimit := 50000000;
       ModernWrites.t_chainID := ModernWrites.chainId config;
       ModernWrites.t_nonce := 7 |} in
  let sv := {| ModernWrites.walletProvider := Some (ModernWrites.willing "extension");
               ModernWrites.calls := [] |} in
  let run := ModernWrites.certifyAction sdk config params sv in
  run.1 = Raised (ErrorObj "Transaction timeout")
  ∧ ModernWrites.calls run.2 =
      [ModernWrites.CallConsoleError "Error certifying action:";
       ModernWrites.CallAwaitCompleted "txhash"; ModernWrites.CallSend transaction;
       ModernWrites.CallSign transaction; ModernWrites.CallGetAccount sender;
       ModernWrites.CallGetAddress] ++ [].
Proof.
  intros sdk config params sender transaction sv.
  apply (modern_certifyAction_fails_after_broadcast sdk config params sv
           (ModernWrites.willing "extension") sender sender "txhash" 7
           (ErrorObj "Transaction timeout")); reflexivity.
Defined.

(** X30: the modern [connectWallet] installs the provider before
    initialising it.  A provider type it does not know makes it throw
    "Unsupported wallet provider: <type>" and leaves the wallet
    provider as it was; a provider whose [init] throws makes it rethrow
    that error and leaves the new provider installed. *)
Theorem modern_connectWallet_failures
    (sdk : ModernWrites.Sdk) (providerType : string) (sv : ModernWrites.Service) :
  let run := ModernWrites.connectWallet sdk providerType sv in
  (providerType ≠ "extension" → providerType ≠ "webwallet" →
   providerType ≠ "walletconnect" → providerType ≠ "hardware" →
   run.1 = Raised (ErrorObj ("Unsupported wallet provider: " +:+ providerType))
   ∧ ModernWrites.walletProvider run.2 = ModernWrites.walletProvider sv)
  ∧ (∀ e, providerType = "extension" ∨ providerType = "walletconnect"
          ∨ providerType = "hardware" →
          ModernWrites.sp_init (ModernWrites.provide sdk providerType) = Raised e →
          run.1 = Raised e
          ∧ ModernWrites.walletProvider run.2
            = Some (ModernWrites.provide sdk providerType)).
Proof.
  unfold ModernWrites.connectWallet, ModernWrites.install, ModernWrites.attempt,
    ModernWrites.call, ModernWrites.raise, ModernWrites.set_walletProvider,
    mbind, ModernWrites.S_bind, mret, ModernWrites.S_ret.
  split.
  - intros H1 H2 H3 H4.
    apply String.eqb_neq in H1, H2, H3, H4. by rewrite H1, H2, H3, H4.
  - intros e [-> | [-> | ->]] Hinit; cbn; by rewrite Hinit.
Qed.

Lemma modern_connectWallet_failures_witness :
  let sdk := ModernWrites.sample_sdk ModernWrites.unwilling (Returned tt) in
  ((ModernWrites.connectWallet sdk "ledger" ModernWrites.fresh).1
     = Raised (ErrorObj ("Unsupported wallet provider: " +:+ "ledger"))
   ∧ ModernWrites.walletProvider
       (ModernWrites.connectWallet sdk "ledger" ModernWrites.fresh).2 = None)
  ∧ ((ModernWrites.connectWallet sdk "extension" ModernWrites.fresh).1
       = Raised (ErrorObj "Extension locked")
     ∧ ModernWrites.walletProvider
         (ModernWrites.connectWallet sdk "extension" ModernWrites.fresh).2
       = Some (ModernWrites.unwilling "extension")).
Proof.
  intros sdk. split.
  - destruct (modern_connectWallet_failures sdk "ledger" ModernWrites.fresh)
      as [Hunknown _].
    apply Hunknown; discriminate.
  - destruct (modern_connectWallet_failures sdk "extension" ModernWrites.fresh)
      as [_ Hinit].
    apply (Hinit (ErrorObj "Extension locked")); [by left|reflexivity].
Defined.
